(** * barman-cloud-backup: the launcher of [barman/clients/cloud_backup.py]

    A shallow embedding of the client script and the properties its
    specification states about it.

    - Python [str] values are Rocq strings, one character per code point
      (code points below 256).
    - [os.environ] is a finite map from names to values.
    - The collaborators the script drives (argument parser, storage client,
      PostgreSQL connection, uploaders, the file system) are objects whose
      calls either return a value or raise; every call the script makes is
      recorded, in order, in the trace of the run. *)

From Stdlib Require Import ZArith Ascii String List Bool Lia.
From stdpp Require Import base option strings gmap.
Import ListNotations.

Local Open Scope string_scope.
Local Open Scope list_scope.
Local Open Scope Z_scope.

(* ===================================================================== *)
(** * Strings *)
(* ===================================================================== *)

(** The character class [\s] of Python 3's [re] on [str] patterns, restricted
    to code points below 256: TAB, LF, VT, FF, CR, the separators FS, GS, RS,
    US, the space, NEL and the no-break space. *)
Definition is_space (c : ascii) : bool :=
  let n := N_of_ascii c in
  ((9 <=? n) && (n <=? 13) || (28 <=? n) && (n <=? 32) || (n =? 133) || (n =? 160))%N.

(** [_find_space = re.compile(r"[\s]").search]: the position of the first
    whitespace character, [None] when there is none. *)
Fixpoint _find_space (value : string) : option nat :=
  match value with
  | EmptyString => None
  | String c rest =>
      if is_space c then Some 0%nat else S <$> _find_space rest
  end.

(** [value.replace(old, new)] for a one-character [old], the only form the
    script uses. *)
Fixpoint replace (old : ascii) (new : string) (value : string) : string :=
  match value with
  | EmptyString => EmptyString
  | String c rest =>
      (if Ascii.eqb c old then new else String c EmptyString)
        +:+ replace old new rest
  end.

(** [sub in value] for a one-character [sub]. *)
Fixpoint contains (sub : ascii) (value : string) : bool :=
  match value with
  | EmptyString => false
  | String c rest => Ascii.eqb c sub || contains sub rest
  end.

(** [sep.join(parts)]. *)
Definition join (sep : string) (parts : list string) : string :=
  String.concat sep parts.

Definition backslash : ascii := ascii_of_nat 92.
Definition squote : ascii := ascii_of_nat 39.
Definition equals_sign : ascii := ascii_of_nat 61.

(** Python's truth value of a string: false exactly for the empty one. *)
Definition str_truthy (value : string) : bool :=
  match value with EmptyString => false | String _ _ => true end.

(** ["%s" % value] for a value that is [None] or a string. *)
Definition fmt_s (value : option string) : string :=
  match value with None => "None" | Some v => v end.

(* ===================================================================== *)
(** * Connection strings *)
(* ===================================================================== *)

(** [quote_conninfo(value)]. *)
Definition quote_conninfo (value : string) : string :=
  if negb (str_truthy value) then "''"
  else if negb (bool_decide (is_Some (_find_space value))) then value
  else "'" +:+ replace squote "\'" (replace backslash "\\" value) +:+ "'".

(** The namespace built by [parse_arguments]. *)
Record Config := {
  destination_url : string;
  server_name : string;
  verbose : Z;
  quiet : Z;
  compression : option string;
  test : bool;
  host : option string;
  port : option string;
  user : option string;
  immediate_checkpoint : bool;
  jobs : Z;
  max_archive_size : Z;
  cloud_provider : string;
  endpoint_url : option string;
  profile : option string;
  encryption : option string;
  dbname : option string;
  encryption_scope : option string
}.

(** [if value: conn_parts.append("key=%s" % quote_conninfo(value))]. *)
Definition append_part (conn_parts : list string) (key : string)
    (value : option string) : list string :=
  match value with
  | Some v =>
      if str_truthy v
      then conn_parts ++ [key +:+ "=" +:+ quote_conninfo v]
      else conn_parts
  | None => conn_parts
  end.

(** [build_conninfo(config)]. *)
Definition build_conninfo (config : Config) : string :=
  let conn_parts : list string := [] in
  let composed :=
    let conn_parts := append_part conn_parts "host" (host config) in
    let conn_parts := append_part conn_parts "port" (port config) in
    let conn_parts := append_part conn_parts "user" (user config) in
    let conn_parts := append_part conn_parts "dbname" (dbname config) in
    join " " conn_parts in
  match dbname config with
  | Some d =>
      if String.eqb d "" || contains equals_sign d then d else composed
  | None => composed
  end.

(* ===================================================================== *)
(** * Exceptions *)
(* ===================================================================== *)

(** The exception classes the script raises, catches or lets through. *)
Inductive exn_class :=
| BaseException
| KeyboardInterrupt
| SystemExit
| Exception
| OSError
| BarmanException
| PostgresConnectionError
| UnrecoverableHookScriptError.

(** The single argument an exception is constructed with. *)
Inductive exn_arg :=
| ArgNone
| ArgInt (code : Z)
| ArgStr (msg : string).

Record exn := Exn { exn_cls : exn_class; exn_value : exn_arg }.

(** Modelled from the spec: the class declarations of [barman.exceptions]
    are not part of the script. Both barman errors the script names derive
    from [BarmanException], which derives from [Exception]; the hook-status
    error is unrecoverable and is not a connection error. The built-in part
    is Python's: [KeyboardInterrupt] and [SystemExit] derive from
    [BaseException] only. *)
Definition parent (c : exn_class) : option exn_class :=
  match c with
  | BaseException => None
  | KeyboardInterrupt | SystemExit | Exception => Some BaseException
  | OSError | BarmanException => Some Exception
  | PostgresConnectionError | UnrecoverableHookScriptError => Some BarmanException
  end.

Definition exn_class_eqb (c d : exn_class) : bool :=
  match c, d with
  | BaseException, BaseException
  | KeyboardInterrupt, KeyboardInterrupt
  | SystemExit, SystemExit
  | Exception, Exception
  | OSError, OSError
  | BarmanException, BarmanException
  | PostgresConnectionError, PostgresConnectionError
  | UnrecoverableHookScriptError, UnrecoverableHookScriptError => true
  | _, _ => false
  end.

(** [issubclass(c, d)], walking up at most [fuel] parents; the hierarchy is
    three levels deep. *)
Fixpoint issubclass_fuel (fuel : nat) (c d : exn_class) : bool :=
  exn_class_eqb c d ||
  match fuel with
  | O => false
  | S fuel' =>
      match parent c with
      | Some p => issubclass_fuel fuel' p d
      | None => false
      end
  end.

Definition issubclass : exn_class -> exn_class -> bool := issubclass_fuel 3.

Definition isinstance (e : exn) (c : exn_class) : bool :=
  issubclass (exn_cls e) c.

(** Decimal digits of a natural number ([fuel] bounds the number of digits). *)
Fixpoint digits_fuel (fuel : nat) (n : N) (acc : string) : string :=
  let acc' := String (ascii_of_N (48 + n mod 10)) acc in
  match fuel with
  | O => acc'
  | S fuel' => if (n <? 10)%N then acc' else digits_fuel fuel' (n / 10)%N acc'
  end.

Definition str_of_Z (z : Z) : string :=
  let n := Z.abs_N z in
  let d := digits_fuel (N.to_nat (N.log2 n)) n EmptyString in
  if z <? 0 then String "-" d else d.

(** A line boundary of [str.splitlines], for code points below 256: LF, VT,
    FF, CR, the separators FS, GS, RS, and NEL. *)
Definition is_line_boundary (c : ascii) : bool :=
  let n := N_of_ascii c in
  ((10 <=? n) && (n <=? 13) || (28 <=? n) && (n <=? 30) || (n =? 133))%N.

(** [text.splitlines()[0]] for a non-empty [text]: what precedes the first
    line boundary. *)
Fixpoint first_line (text : string) : string :=
  match text with
  | EmptyString => EmptyString
  | String c rest =>
      if is_line_boundary c then EmptyString else String c (first_line rest)
  end.

(** [text.lstrip()], [text.rstrip()] and [text.strip()]. *)
Fixpoint lstrip (text : string) : string :=
  match text with
  | EmptyString => EmptyString
  | String c rest => if is_space c then lstrip rest else text
  end.

Fixpoint rstrip (text : string) : string :=
  match text with
  | EmptyString => EmptyString
  | String c rest =>
      match rstrip rest with
      | EmptyString => if is_space c then EmptyString else String c EmptyString
      | kept => String c kept
      end
  end.

Definition strip (text : string) : string := rstrip (lstrip text).

(** [str(exc)] for an exception with the default [__str__]: the text of its
    single argument, nothing when it has none. *)
Definition default_str (value : exn_arg) : string :=
  match value with
  | ArgNone => EmptyString
  | ArgInt code => str_of_Z code
  | ArgStr msg => msg
  end.

(** Modelled from the spec: [force_str] of [barman.utils] and the classes of
    [barman.exceptions] are not part of the script. [force_str(exc)] is
    [str(exc)]. A [PostgresConnectionError] has a [__str__] of its own: the
    first line of its argument, stripped, and nothing when the argument is
    missing or falsy; the other classes have the default one. *)
Definition force_str (e : exn) : string :=
  match exn_cls e with
  | PostgresConnectionError =>
      match exn_value e with
      | ArgNone => EmptyString
      | ArgInt code => if code =? 0 then EmptyString else str_of_Z code
      | ArgStr msg => strip (first_line msg)
      end
  | _ => default_str (exn_value e)
  end.

(* ===================================================================== *)
(** * Runs: outcomes and traces *)
(* ===================================================================== *)

Inductive outcome (A : Type) :=
| Return (a : A)
| Raise (e : exn).
Arguments Return {A} a.
Arguments Raise {A} e.

(** What a call is observed to return. *)
Inductive pyval :=
| PNone
| PBool (b : bool)
| PStr (s : string)
| PObject.

Inductive result :=
| Returned (v : pyval)
| Raised (e : exn).

(** The calls a run makes, with the arguments that matter. *)
Inductive call :=
| ParseArguments (args : list string)
| ConfigureLogging
| Mkdtemp (prefix : string)
| SetTempdir (dir : string)
| GetCloudInterface (url : string)
| TestConnectivity
| SetupBucket
| CloudClose
| IsHookScript
| NewUploaderBarman (backup_dir backup_id : option string)
| NewPostgreSQLConnection (conninfo : string) (immediate : bool) (application_name : string)
| Connect
| PostgresClose
| NewUploaderPostgres
| Backup
| LogError (msg : string)
| LogDebug (msg : string)
| Rmtree (path : string) (ignore_errors : bool).

Definition event : Type := call * result.
Definition trace : Type := list event.

(** A computation: the calls it made and how it ended. *)
Definition M (A : Type) : Type := trace * outcome A.

Definition trace_of {A} (m : M A) : trace := fst m.
Definition outcome_of {A} (m : M A) : outcome A := snd m.

#[global] Instance M_ret : MRet M := fun A a => ([], Return a).

#[global] Instance M_bind : MBind M := fun A B f m =>
  match m with
  | (t, Return a) => let '(t', r) := f a in (t ++ t', r)
  | (t, Raise e) => (t, Raise e)
  end.

Definition raise {A} (e : exn) : M A := ([], Raise e).

Class Observable (A : Type) := observe : A -> pyval.
#[global] Instance observe_unit : Observable unit := fun _ => PNone.
#[global] Instance observe_bool : Observable bool := PBool.
#[global] Instance observe_string : Observable string := PStr.

Definition observe_outcome {A} `{Observable A} (o : outcome A) : result :=
  match o with
  | Return a => Returned (observe a)
  | Raise e => Raised e
  end.

(** Make the call [c], whose outcome is [o]. *)
Definition invoke {A} `{Observable A} (c : call) (o : outcome A) : M A :=
  ([(c, observe_outcome o)], o).

(** [try: body / except cls_1: h_1 / except cls_2: h_2 ...]: the first
    clause whose class the exception is an instance of handles it. *)
Fixpoint select_handler {A} (clauses : list (exn_class * (exn -> M A)))
    (e : exn) : option (M A) :=
  match clauses with
  | [] => None
  | (cls, h) :: rest =>
      if isinstance e cls then Some (h e) else select_handler rest e
  end.

Definition try_except {A} (body : M A)
    (clauses : list (exn_class * (exn -> M A))) : M A :=
  match body with
  | (t, Return a) => (t, Return a)
  | (t, Raise e) =>
      match select_handler clauses e with
      | Some (t', r) => (t ++ t', r)
      | None => (t, Raise e)
      end
  end.

(** [try: body / finally: final]: [final] always runs; if it raises, its
    exception replaces the outcome of [body]. *)
Definition try_finally {A} (body : M A) (final : M unit) : M A :=
  let '(t, r) := body in
  match final with
  | (t', Return _) => (t ++ t', r)
  | (t', Raise e') => (t ++ t', Raise e')
  end.

(** [with closing(thing): body], where [close] is [thing.close()]. *)
Definition with_closing {A} (close : M unit) (body : M A) : M A :=
  try_finally body close.

(** The exit status of the process when [main()] ends with [o]: of the code
    of a [SystemExit] the process keeps the low eight bits; an uncaught
    exception other than [SystemExit] is left to the interpreter. *)
Definition exit_code (o : outcome unit) : option Z :=
  match o with
  | Return _ => Some 0
  | Raise (Exn SystemExit ArgNone) => Some 0
  | Raise (Exn SystemExit (ArgInt code)) => Some (code mod 256)
  | Raise (Exn SystemExit (ArgStr _)) => Some 1
  | Raise _ => None
  end.

(* ===================================================================== *)
(** * Collaborators *)
(* ===================================================================== *)

(** The object [get_cloud_interface] returns: what each of its methods does
    when called. *)
Module CloudInterface.
Record t := {
  test_connectivity : outcome bool;
  setup_bucket : outcome unit;
  close : outcome unit
}.
End CloudInterface.

(** A [PostgreSQLConnection] object. *)
Module Postgres.
Record t := {
  connect : outcome unit;
  close : outcome unit
}.
End Postgres.

(** A [CloudBackupUploaderBarman] or [CloudBackupUploaderPostgres] object. *)
Module Uploader.
Record t := {
  backup : outcome unit
}.
End Uploader.

#[global] Instance observe_cloud_interface : Observable CloudInterface.t := fun _ => PObject.
#[global] Instance observe_postgres : Observable Postgres.t := fun _ => PObject.
#[global] Instance observe_uploader : Observable Uploader.t := fun _ => PObject.

(** The keyword arguments both uploaders are constructed with. *)
Record UploaderKwargs := {
  kw_server_name : string;
  kw_compression : option string;
  kw_max_archive_size : Z;
  kw_cloud_interface : CloudInterface.t
}.

#[global] Instance observe_config : Observable Config := fun _ => PObject.

(** Everything outside the script that a run depends on. [rmtree path] is
    the OS error removing [path] runs into, if any. *)
Record World := {
  parse_arguments : list string -> outcome Config;
  configure_logging : Config -> outcome unit;
  mkdtemp : string -> outcome string;
  rmtree : string -> option string;
  get_cloud_interface :
    string -> option string -> Z -> option string -> option string ->
    string -> option string -> outcome CloudInterface.t;
  CloudBackupUploaderBarman :
    option string -> option string -> UploaderKwargs -> outcome Uploader.t;
  CloudBackupUploaderPostgres :
    Postgres.t -> UploaderKwargs -> outcome Uploader.t;
  PostgreSQLConnection : string -> bool -> string -> outcome Postgres.t
}.

(** [logging.error(msg)] and [logging.debug(msg)]. The logging calls are
    taken to return: an interrupt that arrives inside one is not part of the
    model. *)
Definition logging_error (msg : string) : M unit :=
  invoke (LogError msg) (Return tt).
Definition logging_debug (msg : string) : M unit :=
  invoke (LogDebug msg) (Return tt).

(** [shutil.rmtree(path, ignore_errors)]. The removal either succeeds or
    runs into an OS error, which [ignore_errors] swallows; an interrupt that
    arrives during the removal is not part of the model. *)
Definition shutil_rmtree (w : World) (path : string) (ignore_errors : bool) : M unit :=
  invoke (Rmtree path ignore_errors)
    match rmtree w path with
    | None => Return tt
    | Some msg =>
        if ignore_errors then Return tt else Raise (Exn OSError (ArgStr msg))
    end.

(* ===================================================================== *)
(** * The script *)
(* ===================================================================== *)

(** [os.getenv(name)] and [name in os.environ]. *)
Definition getenv (environ : gmap string string) (name : string) : option string :=
  environ !! name.
Definition in_environ (name : string) (environ : gmap string string) : bool :=
  bool_decide (is_Some (environ !! name)).

(** [__is_hook_script()]. *)
Definition __is_hook_script (environ : gmap string string) : outcome bool :=
  if in_environ "BARMAN_HOOK" environ && in_environ "BARMAN_PHASE" environ then
    if (bool_decide (getenv environ "BARMAN_HOOK" = Some "backup_script")
        || bool_decide (getenv environ "BARMAN_HOOK" = Some "backup_retry_script"))
       && bool_decide (getenv environ "BARMAN_PHASE" = Some "post")
    then Return true
    else
      Raise (Exn BarmanException (ArgStr
        ("barman-cloud-backup called as unsupported hook script: "
           +:+ fmt_s (getenv environ "BARMAN_PHASE") +:+ "_"
           +:+ fmt_s (getenv environ "BARMAN_HOOK"))))
  else Return false.

(** The hook-script branch of [main]. *)
Definition hook_script_backup (w : World) (environ : gmap string string)
    (uploader_kwargs : UploaderKwargs) : M unit :=
  (if negb (in_environ "BARMAN_BACKUP_DIR" environ)
   then raise (Exn BarmanException
                 (ArgStr "BARMAN_BACKUP_DIR environment variable not set"))
   else mret tt);;
  (if negb (in_environ "BARMAN_BACKUP_ID" environ)
   then raise (Exn BarmanException
                 (ArgStr "BARMAN_BACKUP_ID environment variable not set"))
   else mret tt);;
  (if negb (bool_decide (getenv environ "BARMAN_STATUS" = Some "DONE"))
   then raise (Exn UnrecoverableHookScriptError (ArgStr
          ("backup in '" +:+ fmt_s (getenv environ "BARMAN_BACKUP_DIR")
             +:+ "' has status '" +:+ fmt_s (getenv environ "BARMAN_STATUS")
             +:+ "' (status should be: DONE)")))
   else mret tt);;
  uploader ← invoke
    (NewUploaderBarman (getenv environ "BARMAN_BACKUP_DIR")
                       (getenv environ "BARMAN_BACKUP_ID"))
    (CloudBackupUploaderBarman w (getenv environ "BARMAN_BACKUP_DIR")
                               (getenv environ "BARMAN_BACKUP_ID") uploader_kwargs);
  invoke Backup (Uploader.backup uploader).

(** The direct-database branch of [main]. *)
Definition postgres_backup (w : World) (config : Config)
    (uploader_kwargs : UploaderKwargs) : M unit :=
  let conninfo := build_conninfo config in
  postgres ← invoke
    (NewPostgreSQLConnection conninfo (immediate_checkpoint config) "barman_cloud_backup")
    (PostgreSQLConnection w conninfo (immediate_checkpoint config) "barman_cloud_backup");
  try_except (invoke Connect (Postgres.connect postgres))
    [(PostgresConnectionError, fun exc =>
        logging_error ("Cannot connect to postgres: " +:+ force_str exc);;
        logging_debug "Exception details:";;
        raise (Exn SystemExit (ArgInt 1)))];;
  with_closing (invoke PostgresClose (Postgres.close postgres))
    (uploader ← invoke NewUploaderPostgres
       (CloudBackupUploaderPostgres w postgres uploader_kwargs);
     invoke Backup (Uploader.backup uploader)).

(** The body of the [try] statement of [main]. *)
Definition main_body (w : World) (environ : gmap string string)
    (config : Config) (tempdir : string) : M unit :=
  invoke (SetTempdir tempdir) (Return tt);;
  cloud_interface ← invoke (GetCloudInterface (destination_url config))
    (get_cloud_interface w (destination_url config) (encryption config)
       (jobs config) (profile config) (endpoint_url config)
       (cloud_provider config) (encryption_scope config));
  reachable ← invoke TestConnectivity (CloudInterface.test_connectivity cloud_interface);
  (if negb reachable then raise (Exn SystemExit (ArgInt 1))
   else if test config then raise (Exn SystemExit (ArgInt 0))
   else mret tt);;
  with_closing (invoke CloudClose (CloudInterface.close cloud_interface))
    (invoke SetupBucket (CloudInterface.setup_bucket cloud_interface);;
     let uploader_kwargs := {|
       kw_server_name := server_name config;
       kw_compression := compression config;
       kw_max_archive_size := max_archive_size config;
       kw_cloud_interface := cloud_interface
     |} in
     is_hook ← invoke IsHookScript (__is_hook_script environ);
     if is_hook : bool
     then hook_script_backup w environ uploader_kwargs
     else postgres_backup w config uploader_kwargs).

(** The [except] clauses of [main], in order. *)
Definition main_handlers : list (exn_class * (exn -> M unit)) :=
  [ (KeyboardInterrupt, fun exc =>
       logging_error "Barman cloud backup was interrupted by the user";;
       logging_debug "Exception details:";;
       raise (Exn SystemExit (ArgInt 1)));
    (UnrecoverableHookScriptError, fun exc =>
       logging_error ("Barman cloud backup exception: " +:+ force_str exc);;
       logging_debug "Exception details:";;
       raise (Exn SystemExit (ArgInt 63)));
    (Exception, fun exc =>
       logging_error ("Barman cloud backup exception: " +:+ force_str exc);;
       logging_debug "Exception details:";;
       raise (Exn SystemExit (ArgInt 1))) ].

(** The [try] statement of [main]: body, [except] clauses, and the
    [finally] clause that removes the temporary directory. *)
Definition main_try (w : World) (environ : gmap string string)
    (config : Config) (tempdir : string) : M unit :=
  try_finally
    (try_except (main_body w environ config tempdir) main_handlers)
    (shutil_rmtree w tempdir true).

(** [main(args)], run in the world [w] with the environment [environ]. *)
Definition main (w : World) (environ : gmap string string)
    (args : list string) : M unit :=
  config ← invoke (ParseArguments args) (parse_arguments w args);
  invoke ConfigureLogging (configure_logging w config);;
  tempdir ← invoke (Mkdtemp "barman-cloud-backup-") (mkdtemp w "barman-cloud-backup-");
  main_try w environ config tempdir.

(* ===================================================================== *)
(** * Sample worlds and environments *)
(* ===================================================================== *)

Definition sample_config : Config := {|
  destination_url := "s3://bucket/path/to/folder";
  server_name := "pg";
  verbose := 0;
  quiet := 0;
  compression := None;
  test := false;
  host := None;
  port := None;
  user := None;
  immediate_checkpoint := false;
  jobs := 2;
  max_archive_size := 100000000000;
  cloud_provider := "aws-s3";
  endpoint_url := None;
  profile := None;
  encryption := None;
  dbname := Some "postgres";
  encryption_scope := None
|}.

Definition with_test (config : Config) (flag : bool) : Config := {|
  destination_url := destination_url config;
  server_name := server_name config;
  verbose := verbose config;
  quiet := quiet config;
  compression := compression config;
  test := flag;
  host := host config;
  port := port config;
  user := user config;
  immediate_checkpoint := immediate_checkpoint config;
  jobs := jobs config;
  max_archive_size := max_archive_size config;
  cloud_provider := cloud_provider config;
  endpoint_url := endpoint_url config;
  profile := profile config;
  encryption := encryption config;
  dbname := dbname config;
  encryption_scope := encryption_scope config
|}.

Definition with_conn (config : Config) (h p u d : option string) : Config := {|
  destination_url := destination_url config;
  server_name := server_name config;
  verbose := verbose config;
  quiet := quiet config;
  compression := compression config;
  test := test config;
  host := h;
  port := p;
  user := u;
  immediate_checkpoint := immediate_checkpoint config;
  jobs := jobs config;
  max_archive_size := max_archive_size config;
  cloud_provider := cloud_provider config;
  endpoint_url := endpoint_url config;
  profile := profile config;
  encryption := encryption config;
  dbname := d;
  encryption_scope := encryption_scope config
|}.

(** A storage client whose probe answers [reachable] and whose other calls
    succeed. *)
Definition sample_cloud (reachable : bool) : CloudInterface.t := {|
  CloudInterface.test_connectivity := Return reachable;
  CloudInterface.setup_bucket := Return tt;
  CloudInterface.close := Return tt
|}.

Definition sample_postgres : Postgres.t := {|
  Postgres.connect := Return tt;
  Postgres.close := Return tt
|}.

(** An uploader whose transfer ends with [transfer]. *)
Definition sample_uploader (transfer : outcome unit) : Uploader.t := {|
  Uploader.backup := transfer
|}.

(** A world in which the arguments parse to [config], the storage client is
    [cloud], the transfer ends with [transfer] and everything else succeeds. *)
Definition sample_world (config : Config) (cloud : CloudInterface.t)
    (transfer : outcome unit) : World := {|
  parse_arguments := fun _ => Return config;
  configure_logging := fun _ => Return tt;
  mkdtemp := fun prefix => Return ("/tmp/" +:+ prefix +:+ "k3x9");
  rmtree := fun _ => None;
  get_cloud_interface := fun _ _ _ _ _ _ _ => Return cloud;
  CloudBackupUploaderBarman := fun _ _ _ => Return (sample_uploader transfer);
  CloudBackupUploaderPostgres := fun _ _ => Return (sample_uploader transfer);
  PostgreSQLConnection := fun _ _ _ => Return sample_postgres
|}.

Definition sample_args : list string := ["s3://bucket/path/to/folder"; "pg"].

(** Environments: a plain invocation, and invocations as a barman hook. *)
Definition env_direct : gmap string string := ∅.

Definition env_hook (hook phase : string) : gmap string string :=
  <["BARMAN_HOOK" := hook]> (<["BARMAN_PHASE" := phase]> ∅).

Definition env_hook_backup (status : string) : gmap string string :=
  <["BARMAN_BACKUP_DIR" := "/var/lib/barman/pg/base/20210101T000000"]>
    (<["BARMAN_BACKUP_ID" := "20210101T000000"]>
       (<["BARMAN_STATUS" := status]> (env_hook "backup_script" "post"))).

(** A hook invocation after a backup that is still running, with the backup
    directory left unset. *)
Definition env_hook_no_dir : gmap string string :=
  <["BARMAN_BACKUP_ID" := "20210101T000000"]>
    (<["BARMAN_STATUS" := "RUNNING"]> (env_hook "backup_script" "post")).

(** A world in which everything succeeds, and one in which the destination
    is unreachable. *)
Definition world_ok : World :=
  sample_world sample_config (sample_cloud true) (Return tt).
Definition world_unreachable : World :=
  sample_world sample_config (sample_cloud false) (Return tt).
(** A world in which the test-only flag was given. *)
Definition world_test_only : World :=
  sample_world (with_test sample_config true) (sample_cloud true) (Return tt).
(** A world in which the user interrupts the release of the storage
    client. *)
Definition world_close_interrupted : World :=
  sample_world sample_config
    {| CloudInterface.test_connectivity := Return true;
       CloudInterface.setup_bucket := Return tt;
       CloudInterface.close := Raise (Exn KeyboardInterrupt ArgNone) |}
    (Return tt).
(** A world in which the transfer is interrupted by the user. *)
Definition world_interrupted : World :=
  sample_world sample_config (sample_cloud true)
    (Raise (Exn KeyboardInterrupt ArgNone)).

(* ===================================================================== *)
(** * The specification's reading of connection strings *)
(* ===================================================================== *)

(** The value contains a whitespace character. *)
Fixpoint has_whitespace (value : string) : bool :=
  match value with
  | EmptyString => false
  | String c rest => is_space c || has_whitespace rest
  end.

(** Every backslash and every single quote is preceded by a backslash. *)
Fixpoint escape (value : string) : string :=
  match value with
  | EmptyString => EmptyString
  | String c rest =>
      if Ascii.eqb c backslash || Ascii.eqb c squote
      then String backslash (String c (escape rest))
      else String c (escape rest)
  end.

(** The quoting rule in the specification's words: the value unmodified if
    it contains no whitespace, otherwise wrapped in single quotes with
    backslashes and single quotes escaped. *)
Definition quote_spec (value : string) : string :=
  if has_whitespace value
  then String squote (escape value +:+ String squote EmptyString)
  else value.

(** The [key=value] pair of one parameter; a parameter that was not given, or
    was given empty, is unset and contributes nothing. *)
Definition pair_spec (key : string) (value : option string) : list string :=
  match value with
  | None => []
  | Some EmptyString => []
  | Some v => [key +:+ "=" +:+ quote_spec v]
  end.

(** The composed connection string in the specification's words: the pairs
    in the order host, port, user, dbname, separated by one space. *)
Definition conninfo_spec (config : Config) : string :=
  join " " (pair_spec "host" (host config) ++ pair_spec "port" (port config)
            ++ pair_spec "user" (user config) ++ pair_spec "dbname" (dbname config)).

(** Modelled from the spec: the reader of one connection-string value, which
    is PostgreSQL's and not part of the script. Inside single quotes a
    backslash makes the next character literal and the next unescaped single
    quote ends the value; [read_quoted] reads what follows the opening
    quote. *)
Fixpoint read_quoted (text : string) : option string :=
  match text with
  | EmptyString => None
  | String c rest =>
      if Ascii.eqb c backslash then
        match rest with
        | EmptyString => None
        | String c' rest' => String c' <$> read_quoted rest'
        end
      else if Ascii.eqb c squote then
        match rest with
        | EmptyString => Some EmptyString
        | String _ _ => None
        end
      else String c <$> read_quoted rest
  end.

(** Modelled from the spec: an unquoted value runs to the end of the text;
    a backslash makes the next character literal, and whitespace cannot
    occur in it. *)
Fixpoint read_plain (text : string) : option string :=
  match text with
  | EmptyString => Some EmptyString
  | String c rest =>
      if Ascii.eqb c backslash then
        match rest with
        | EmptyString => Some EmptyString
        | String c' rest' => String c' <$> read_plain rest'
        end
      else if is_space c then None
      else String c <$> read_plain rest
  end.

(** Modelled from the spec: parsing a value, that is, unescaping the quoted
    form when the text starts with a single quote. *)
Definition parse_conninfo_value (text : string) : option string :=
  match text with
  | String c rest => if Ascii.eqb c squote then read_quoted rest else read_plain text
  | EmptyString => read_plain text
  end.

(* ===================================================================== *)
(** * Observations on traces *)
(* ===================================================================== *)

Definition is_resolution (e : event) : bool :=
  match fst e with IsHookScript => true | _ => false end.
Definition is_probe (e : event) : bool :=
  match fst e with TestConnectivity => true | _ => false end.
Definition is_provisioning (e : event) : bool :=
  match fst e with SetupBucket => true | _ => false end.
Definition is_transfer (e : event) : bool :=
  match fst e with Backup => true | _ => false end.
Definition is_rmtree (e : event) : bool :=
  match fst e with Rmtree _ _ => true | _ => false end.
Definition is_postgres_close (e : event) : bool :=
  match fst e with PostgresClose => true | _ => false end.
Definition is_hook_uploader (e : event) : bool :=
  match fst e with NewUploaderBarman _ _ => true | _ => false end.
(** Calls on the uploaders and on the database connection. *)
Definition is_uploader_or_database (e : event) : bool :=
  match fst e with
  | NewUploaderBarman _ _ | NewUploaderPostgres | Backup
  | NewPostgreSQLConnection _ _ _ | Connect | PostgresClose => true
  | _ => false
  end.

(** How many events of [t] satisfy [p]. *)
Fixpoint count (p : event -> bool) (t : trace) : nat :=
  match t with
  | [] => 0%nat
  | e :: rest => ((if p e then 1 else 0) + count p rest)%nat
  end.

(** The connection to PostgreSQL was opened: [connect()] returned. *)
Definition is_connected (e : event) : bool :=
  match e with (Connect, Returned _) => true | _ => false end.

Definition is_log (e : event) : bool :=
  match fst e with LogError _ | LogDebug _ => true | _ => false end.

(** The directory the first successful [mkdtemp] of the run returned. *)
Fixpoint created_tempdir (t : trace) : option string :=
  match t with
  | [] => None
  | (Mkdtemp _, Returned (PStr dir)) :: _ => Some dir
  | _ :: rest => created_tempdir rest
  end.

(** What the [except] clauses of [main] log for the outcome of the body, and
    the outcome they turn it into. *)
Definition handler_log (o : outcome unit) : trace :=
  match o with
  | Return _ => []
  | Raise e =>
      match select_handler main_handlers e with
      | Some (t, _) => t
      | None => []
      end
  end.

Definition handled (o : outcome unit) : outcome unit :=
  match o with
  | Return a => Return a
  | Raise e =>
      match select_handler main_handlers e with
      | Some (_, r) => r
      | None => Raise e
      end
  end.

(** The events of [t] before the first call of [__is_hook_script] (all of
    [t] when it is never called). *)
Fixpoint before_resolution (t : trace) : trace :=
  match t with
  | [] => []
  | e :: rest => if is_resolution e then [] else e :: before_resolution rest
  end.

(** The claim that resolution comes first: [__is_hook_script] is called
    exactly once, and neither the probe nor provisioning is called before
    it. *)
Definition resolution_first (t : trace) : Prop :=
  count is_resolution t = 1%nat /\
  count is_probe (before_resolution t) = 0%nat /\
  count is_provisioning (before_resolution t) = 0%nat.

(** Releasing the storage client raised. *)
Definition is_cloud_close_raised (e : event) : bool :=
  match e with (CloudClose, Raised _) => true | _ => false end.

(** The storage client was released without error (or never entered). *)
Definition cloud_released (t : trace) : Prop :=
  count is_cloud_close_raised t = 0%nat.

(** The run performed the resolution of its execution mode. *)
Definition resolved (t : trace) : Prop :=
  count is_resolution t = 1%nat.

(* ===================================================================== *)
(** * Proof automation for runs *)
(* ===================================================================== *)

Arguments build_conninfo : simpl never.
Arguments __is_hook_script : simpl never.
Arguments getenv : simpl never.
Arguments in_environ : simpl never.
Arguments force_str : simpl never.
Arguments String.append : simpl never.
Arguments isinstance : simpl never.
Arguments main_body : simpl never.
Arguments handler_log : simpl never.
Arguments handled : simpl never.

(** Expose the calls of the body of [main]. *)
Ltac unfold_body :=
  unfold main_body, postgres_backup, hook_script_backup,
    with_closing, try_finally, try_except, select_handler,
    logging_error, logging_debug,
    invoke, raise, mbind, M_bind, mret, M_ret, trace_of, outcome_of.

(** Use what is known about the environment and the configuration. *)
Ltac use_facts :=
  repeat match goal with
  | H : in_environ _ _ = _ |- _ => rewrite H
  | H : __is_hook_script _ = _ |- _ => rewrite H
  | H : test _ = _ |- _ => rewrite H
  | H : bool_decide _ = _ |- _ => rewrite H
  end.

(** Split on the outcome of the next call or test of the body, in the order
    in which the body makes them. *)
Ltac next_call :=
  match goal with
  | |- context [get_cloud_interface ?w ?x1 ?x2 ?x3 ?x4 ?x5 ?x6 ?x7] =>
      destruct (get_cloud_interface w x1 x2 x3 x4 x5 x6 x7) as [?ci|?exc]
  | |- context [CloudInterface.test_connectivity ?x] =>
      destruct (CloudInterface.test_connectivity x) as [[|]|?exc]
  | |- context [test ?x] => destruct (test x)
  | |- context [CloudInterface.close ?x] =>
      destruct (CloudInterface.close x) as [[]|?exc]
  | |- context [CloudInterface.setup_bucket ?x] =>
      destruct (CloudInterface.setup_bucket x) as [[]|?exc]
  | |- context [__is_hook_script ?x] =>
      destruct (__is_hook_script x) as [[|]|?exc]
  | |- context [in_environ ?n ?x] => destruct (in_environ n x)
  | |- context [bool_decide ?P] => destruct (bool_decide P)
  | |- context [CloudBackupUploaderBarman ?w ?x1 ?x2 ?x3] =>
      destruct (CloudBackupUploaderBarman w x1 x2 x3) as [?up|?exc]
  | |- context [PostgreSQLConnection ?w ?x1 ?x2 ?x3] =>
      destruct (PostgreSQLConnection w x1 x2 x3) as [?pg|?exc]
  | |- context [Postgres.connect ?x] =>
      destruct (Postgres.connect x) as [[]|?exc]
  | |- context [isinstance ?x ?c] => destruct (isinstance x c)
  | |- context [Postgres.close ?x] =>
      destruct (Postgres.close x) as [[]|?exc]
  | |- context [CloudBackupUploaderPostgres ?w ?x1 ?x2] =>
      destruct (CloudBackupUploaderPostgres w x1 x2) as [?up|?exc]
  | |- context [Uploader.backup ?x] =>
      destruct (Uploader.backup x) as [[]|?exc]
  end; cbn.

(** All the ways the body of [main] can go: the goal, a statement about
    [main_body], is split into one goal per path through the body. *)
Ltac body_cases :=
  match goal with
  | |- context [main_body ?w ?en ?c ?t] => pattern (main_body w en c t)
  end;
  match goal with
  | |- ?P _ => let Q := fresh "Q" in remember P as Q eqn:HQ
  end;
  unfold_body; cbn; use_facts; cbn;
  repeat next_call;
  match goal with HQ : _ = _ |- _ => rewrite HQ; clear HQ end; cbn.

(** [H] says an event occurs in a trace that is written out and does not
    contain it. *)
Ltac not_in_trace H :=
  exfalso;
  repeat (apply elem_of_cons in H; destruct H as [H|H]; [discriminate H|]);
  apply elem_of_nil in H; exact H.

(** The event occurs in a trace that is written out. *)
Ltac in_trace :=
  repeat first [apply list_elem_of_here | apply list_elem_of_further].

(** Split a statement about a run into the ways the run can go; [cases] is
    the case distinction on that run: it stopped at one of the three calls
    before the [try] statement, or ran the [try] statement. *)
Ltac run_cases cases :=
  let e := fresh "e" in
  let E := fresh "E" in
  let config := fresh "config" in
  let tempdir := fresh "tempdir" in
  let Hp := fresh "Hparse" in
  destruct cases as [[e E]|[[e E]|[[e E]|(config & tempdir & Hp & E)]]];
  rewrite E in *; unfold trace_of, outcome_of in *; cbn [fst snd] in *.

(** No call the handlers log is counted by the observer at hand. *)
Ltac no_log_event := intros [[] ?] Hl; (discriminate Hl || reflexivity).

(* ===================================================================== *)
(** * Further observations on runs *)
(* ===================================================================== *)

Definition is_cloud_close (e : event) : bool :=
  match fst e with CloudClose => true | _ => false end.
Definition is_new_postgres (e : event) : bool :=
  match fst e with NewPostgreSQLConnection _ _ _ => true | _ => false end.
(** Calls on the database connection and on the uploader that uses it. *)
Definition is_database (e : event) : bool :=
  match fst e with
  | NewPostgreSQLConnection _ _ _ | Connect | PostgresClose
  | NewUploaderPostgres => true
  | _ => false
  end.
(** Closing the database connection raised. *)
Definition is_postgres_close_raised (e : event) : bool :=
  match e with (PostgresClose, Raised _) => true | _ => false end.

(** The database connection was closed without error (or never opened). *)
Definition postgres_released (t : trace) : Prop :=
  count is_postgres_close_raised t = 0%nat.

(** The world [w] with another file system under [rmtree]. *)
Definition with_rmtree (w : World) (removal : string -> option string) : World := {|
  parse_arguments := parse_arguments w;
  configure_logging := configure_logging w;
  mkdtemp := mkdtemp w;
  rmtree := removal;
  get_cloud_interface := get_cloud_interface w;
  CloudBackupUploaderBarman := CloudBackupUploaderBarman w;
  CloudBackupUploaderPostgres := CloudBackupUploaderPostgres w;
  PostgreSQLConnection := PostgreSQLConnection w
|}.

(** The configuration with another [dbname]. *)
Definition with_dbname (config : Config) (d : option string) : Config :=
  with_conn config (host config) (port config) (user config) d.

(** Neither given nor non-empty: what [if value:] skips. *)
Definition unset (value : option string) : Prop :=
  value = None \/ value = Some EmptyString.

(** A world in which nothing can be removed from the file system. *)
Definition world_rmtree_fails : World :=
  with_rmtree world_ok (fun _ => Some "Permission denied").
(** A world in which the transfer fails with an I/O error, and one in which
    the arguments do not parse. *)
Definition world_transfer_fails : World :=
  sample_world sample_config (sample_cloud true)
    (Raise (Exn OSError (ArgStr "Broken pipe"))).
Definition world_bad_args : World := {|
  parse_arguments := fun _ => Raise (Exn SystemExit (ArgInt 2));
  configure_logging := fun _ => Return tt;
  mkdtemp := fun prefix => Return ("/tmp/" +:+ prefix +:+ "k3x9");
  rmtree := fun _ => None;
  get_cloud_interface := fun _ _ _ _ _ _ _ => Return (sample_cloud true);
  CloudBackupUploaderBarman := fun _ _ _ => Return (sample_uploader (Return tt));
  CloudBackupUploaderPostgres := fun _ _ => Return (sample_uploader (Return tt));
  PostgreSQLConnection := fun _ _ _ => Return sample_postgres
|}.

(** [value.startswith(c)] for a one-character prefix. *)
Definition starts_with (c : ascii) (value : string) : bool :=
  match value with
  | EmptyString => false
  | String first _ => Ascii.eqb first c
  end.

(** The events of [t] before the first one that satisfies [p] (all of [t]
    when there is none). *)
Fixpoint before (p : event -> bool) (t : trace) : trace :=
  match t with
  | [] => []
  | e :: rest => if p e then [] else e :: before p rest
  end.

(** No logging call and no [rmtree] call of the run raised: the handlers and
    the [finally] clause ran to their end. The model records these calls as
    returning; this says so of the run. *)
Definition handlers_and_cleanup_returned (t : trace) : Prop :=
  forall c e, (c, Raised e) ∈ t ->
    is_log (c, Raised e) = false /\ is_rmtree (c, Raised e) = false.

(** A world in which PostgreSQL refuses the connection with a message of
    several lines. *)
Definition world_postgres_down : World := {|
  parse_arguments := fun _ => Return sample_config;
  configure_logging := fun _ => Return tt;
  mkdtemp := fun prefix => Return ("/tmp/" +:+ prefix +:+ "k3x9");
  rmtree := fun _ => None;
  get_cloud_interface := fun _ _ _ _ _ _ _ => Return (sample_cloud true);
  CloudBackupUploaderBarman := fun _ _ _ => Return (sample_uploader (Return tt));
  CloudBackupUploaderPostgres := fun _ _ => Return (sample_uploader (Return tt));
  PostgreSQLConnection := fun _ _ _ => Return {|
    Postgres.connect :=
      Raise (Exn PostgresConnectionError
               (ArgStr (" could not connect to server " +:+ String (ascii_of_nat 10)
                          ("Is the server running?"))));
    Postgres.close := Return tt |}
|}.

(** As [next_call], keeping the equation of every split. *)
Ltac next_call_eq :=
  match goal with
  | |- context [get_cloud_interface ?w ?x1 ?x2 ?x3 ?x4 ?x5 ?x6 ?x7] =>
      destruct (get_cloud_interface w x1 x2 x3 x4 x5 x6 x7) as [?ci|?exc] eqn:?
  | |- context [CloudInterface.test_connectivity ?x] =>
      destruct (CloudInterface.test_connectivity x) as [[|]|?exc] eqn:?
  | |- context [test ?x] => destruct (test x) eqn:?
  | |- context [CloudInterface.close ?x] =>
      destruct (CloudInterface.close x) as [[]|?exc] eqn:?
  | |- context [CloudInterface.setup_bucket ?x] =>
      destruct (CloudInterface.setup_bucket x) as [[]|?exc] eqn:?
  | |- context [__is_hook_script ?x] =>
      destruct (__is_hook_script x) as [[|]|?exc] eqn:?
  | |- context [in_environ ?n ?x] => destruct (in_environ n x) eqn:?
  | |- context [bool_decide ?P] => destruct (bool_decide P) eqn:?
  | |- context [CloudBackupUploaderBarman ?w ?x1 ?x2 ?x3] =>
      destruct (CloudBackupUploaderBarman w x1 x2 x3) as [?up|?exc] eqn:?
  | |- context [PostgreSQLConnection ?w ?x1 ?x2 ?x3] =>
      destruct (PostgreSQLConnection w x1 x2 x3) as [?pg|?exc] eqn:?
  | |- context [Postgres.connect ?x] =>
      destruct (Postgres.connect x) as [[]|?exc] eqn:?
  | |- context [isinstance ?x ?c] => destruct (isinstance x c) eqn:?
  | |- context [Postgres.close ?x] =>
      destruct (Postgres.close x) as [[]|?exc] eqn:?
  | |- context [CloudBackupUploaderPostgres ?w ?x1 ?x2] =>
      destruct (CloudBackupUploaderPostgres w x1 x2) as [?up|?exc] eqn:?
  | |- context [Uploader.backup ?x] =>
      destruct (Uploader.backup x) as [[]|?exc] eqn:?
  end; cbn.

(** As [body_cases], with what is known of each path as hypotheses. *)
Ltac body_cases_eq :=
  match goal with
  | |- context [main_body ?w ?en ?c ?t] => pattern (main_body w en c t)
  end;
  match goal with
  | |- ?P _ => let Q := fresh "Q" in remember P as Q eqn:HQ
  end;
  unfold_body; cbn; use_facts; cbn;
  repeat next_call_eq;
  match goal with HQ : _ = _ |- _ => rewrite HQ; clear HQ end; cbn.

(** [H] says an event occurs in a trace that is written out: keep the
    positions at which it can. *)
Ltac where_in_trace H :=
  repeat (apply elem_of_cons in H; destruct H as [H|H];
          [try discriminate H|]);
  try (apply elem_of_nil in H; contradiction).

(* ===================================================================== *)
(** * The definitions at concrete inputs *)
(* ===================================================================== *)

Example quote_1 : quote_conninfo "a b" = "'a b'".
Proof. reflexivity. Qed.
Example quote_2 : quote_conninfo "it's a\b" = "'it\'s a\\b'".
Proof. reflexivity. Qed.
Example str_of_Z_63 : str_of_Z 63 = "63" /\ str_of_Z (-105) = "-105" /\ str_of_Z 0 = "0".
Proof. repeat split; reflexivity. Qed.
Example subclass_1 :
  issubclass UnrecoverableHookScriptError Exception = true /\
  issubclass SystemExit Exception = false /\
  issubclass BarmanException UnrecoverableHookScriptError = false.
Proof. repeat split; reflexivity. Qed.

(* ===================================================================== *)
(** * Properties of the string helpers *)
(* ===================================================================== *)

Lemma find_space_has_whitespace (value : string) :
  bool_decide (is_Some (_find_space value)) = has_whitespace value.
Proof.
  induction value as [|c rest IH]; [reflexivity|].
  cbn [_find_space has_whitespace].
  destruct (is_space c); [reflexivity|].
  rewrite orb_false_l, <- IH.
  apply bool_decide_ext. rewrite fmap_is_Some. reflexivity.
Qed.

Lemma append_cons (x : ascii) (a b : string) :
  String x a +:+ b = String x (a +:+ b).
Proof. reflexivity. Qed.

Lemma append_assoc (a b c : string) : (a +:+ b) +:+ c = a +:+ (b +:+ c).
Proof.
  induction a as [|x a IH]; [reflexivity|].
  now rewrite !append_cons, IH.
Qed.

Lemma replace_app (old : ascii) (new a b : string) :
  replace old new (a +:+ b) = replace old new a +:+ replace old new b.
Proof.
  induction a as [|c a IH]; [reflexivity|].
  rewrite append_cons. simpl replace. now rewrite IH, append_assoc.
Qed.

(** The two [replace] calls of [quote_conninfo], in their order, escape each
    backslash and each single quote once. *)
Lemma replace_twice_escape (value : string) :
  replace squote "\'" (replace backslash "\\" value) = escape value.
Proof.
  induction value as [|c rest IH]; [reflexivity|].
  simpl replace at 2. rewrite replace_app, IH. simpl escape.
  destruct (Ascii.eqb c backslash) eqn:Hb.
  - apply Ascii.eqb_eq in Hb. subst c. reflexivity.
  - simpl replace. rewrite orb_false_l.
    destruct (Ascii.eqb c squote) eqn:Hq.
    + apply Ascii.eqb_eq in Hq. subst c. reflexivity.
    + reflexivity.
Qed.

Lemma quote_conninfo_quote_spec (value : string) :
  value <> EmptyString -> quote_conninfo value = quote_spec value.
Proof.
  intros Hne. unfold quote_conninfo, quote_spec.
  destruct value as [|c rest]; [congruence|].
  cbn [str_truthy negb].
  rewrite find_space_has_whitespace.
  destruct (has_whitespace (String c rest)); cbn [negb].
  - now rewrite replace_twice_escape.
  - reflexivity.
Qed.

Lemma read_quoted_escape (value : string) :
  read_quoted (escape value +:+ String squote EmptyString) = Some value.
Proof.
  induction value as [|c rest IH]; [reflexivity|].
  simpl escape.
  destruct (Ascii.eqb c backslash) eqn:Hb; cbn [orb].
  - rewrite !append_cons. simpl read_quoted. rewrite IH. reflexivity.
  - destruct (Ascii.eqb c squote) eqn:Hq; rewrite !append_cons; simpl read_quoted.
    + rewrite IH. reflexivity.
    + rewrite Hb, Hq, IH. reflexivity.
Qed.

Lemma has_whitespace_nonempty (value : string) :
  has_whitespace value = true -> value <> EmptyString.
Proof. destruct value; [discriminate | congruence]. Qed.

Lemma append_part_pair_spec (parts : list string) (key : string)
    (value : option string) :
  append_part parts key value = parts ++ pair_spec key value.
Proof.
  destruct value as [[|c rest]|]; cbn [append_part pair_spec str_truthy].
  - now rewrite app_nil_r.
  - now rewrite quote_conninfo_quote_spec.
  - now rewrite app_nil_r.
Qed.

Lemma read_plain_plain (value : string) :
  has_whitespace value = false ->
  contains backslash value = false ->
  read_plain value = Some value.
Proof.
  induction value as [|c rest IH]; [reflexivity|].
  cbn [has_whitespace contains read_plain]. intros Hw Hb.
  apply orb_false_iff in Hw as [Hc Hw]. apply orb_false_iff in Hb as [Hcb Hb].
  now rewrite Hcb, Hc, IH.
Qed.

(** Reading an unquoted text never gives more characters than it has, and
    fewer when it has a backslash. *)
Lemma read_plain_length (n : nat) :
  forall text s, (String.length text <= n)%nat ->
    read_plain text = Some s ->
    (String.length s <= String.length text)%nat /\
    (contains backslash text = true ->
     (String.length s < String.length text)%nat).
Proof.
  induction n as [|n IH]; intros [|c rest] s Hn H;
    cbn [String.length] in Hn; try lia.
  - injection H as <-. split; [reflexivity | discriminate].
  - injection H as <-. split; [reflexivity | discriminate].
  - cbn [read_plain contains String.length] in *.
    destruct (Ascii.eqb c backslash) eqn:Hb.
    + destruct rest as [|c' rest'].
      * injection H as <-. cbn. split; [lia | intros _; lia].
      * destruct (read_plain rest') as [s'|] eqn:Hs; [|discriminate H].
        injection H as <-. cbn [String.length] in *.
        destruct (IH rest' s') as [Hle _]; [lia | assumption |].
        split; [lia | intros _; lia].
    + destruct (is_space c); [discriminate H|].
      destruct (read_plain rest) as [s'|] eqn:Hs; [|discriminate H].
      injection H as <-. cbn [String.length orb].
      destruct (IH rest s') as [Hle Hlt]; [lia | assumption |].
      split; [lia | intros Hc; specialize (Hlt Hc); lia].
Qed.

(** Reading a quoted text gives fewer characters than it has: the closing
    quote is not one of them. *)
Lemma read_quoted_length (n : nat) :
  forall text s, (String.length text <= n)%nat ->
    read_quoted text = Some s ->
    (String.length s < String.length text)%nat.
Proof.
  induction n as [|n IH]; intros [|c rest] s Hn H;
    cbn [String.length] in Hn; try lia; try discriminate H.
  cbn [read_quoted String.length] in *.
  destruct (Ascii.eqb c backslash).
  - destruct rest as [|c' rest']; [discriminate H|].
    destruct (read_quoted rest') as [s'|] eqn:Hs; [|discriminate H].
    injection H as <-. cbn [String.length] in *.
    pose proof (IH rest' s' ltac:(lia) Hs). lia.
  - destruct (Ascii.eqb c squote).
    + destruct rest; [|discriminate H]. injection H as <-. cbn. lia.
    + destruct (read_quoted rest) as [s'|] eqn:Hs; [|discriminate H].
      injection H as <-. cbn [String.length].
      pose proof (IH rest s' ltac:(lia) Hs). lia.
Qed.

(* ===================================================================== *)
(** * Claims about connection strings *)
(* ===================================================================== *)

(** C2: when [dbname] is the empty string or contains [=], [build_conninfo]
    returns it unchanged, whatever the host, port and user are. *)
Theorem build_conninfo_dsn_verbatim (config : Config) (d : string) :
  dbname config = Some d ->
  d = EmptyString \/ contains equals_sign d = true ->
  build_conninfo config = d /\
  forall h p u : option string,
    build_conninfo (with_conn config h p u (Some d)) = d.
Proof.
  intros Hd Hdsn.
  assert (Hc : String.eqb d "" || contains equals_sign d = true).
  { destruct Hdsn as [-> | ->]; [reflexivity | apply orb_true_r]. }
  split; [|intros h p u]; unfold build_conninfo; cbn [dbname with_conn];
    rewrite ?Hd, Hc; reflexivity.
Qed.

Lemma build_conninfo_dsn_verbatim_witness :
  build_conninfo (with_conn sample_config (Some "db1") None (Some "amy")
                    (Some "host=db2 user=bob"))
  = "host=db2 user=bob".
Proof.
  apply (build_conninfo_dsn_verbatim
           (with_conn sample_config (Some "db1") None (Some "amy")
              (Some "host=db2 user=bob")) "host=db2 user=bob").
  - reflexivity.
  - right. reflexivity.
Defined.

(** C7, as stated, fails: a value with single quotes but no whitespace is
    returned as it is, and unescaping that output does not give it back. *)
Lemma quote_conninfo_roundtrip_counterexample :
  contains squote "'a'" = true /\
  quote_conninfo "'a'" = "'a'" /\
  parse_conninfo_value (quote_conninfo "'a'") = Some "a" /\
  parse_conninfo_value (quote_conninfo "'a'") <> Some "'a'".
Proof. repeat split; try reflexivity. discriminate. Qed.

(** C7, amended: parsing the output of [quote_conninfo] recovers the value
    exactly if and only if the value contains whitespace, or has no
    backslash and does not begin with a single quote; so among the values
    with a single quote or a backslash, exactly those that have no
    whitespace and have a backslash or a leading single quote are lost. *)
Theorem quote_conninfo_roundtrip (value : string) :
  parse_conninfo_value (quote_conninfo value) = Some value <->
  has_whitespace value = true \/
  (contains backslash value = false /\ starts_with squote value = false).
Proof.
  destruct (has_whitespace value) eqn:Hws.
  - split; [auto|]. intros _.
    rewrite quote_conninfo_quote_spec by now apply has_whitespace_nonempty.
    unfold quote_spec. rewrite Hws.
    unfold parse_conninfo_value. rewrite Ascii.eqb_refl.
    apply read_quoted_escape.
  - destruct value as [|c rest]; [split; [now right | reflexivity]|].
    rewrite quote_conninfo_quote_spec by discriminate.
    unfold quote_spec. rewrite Hws.
    unfold parse_conninfo_value. cbn [starts_with].
    destruct (Ascii.eqb c squote) eqn:Hq.
    + split.
      * intros H. apply (read_quoted_length _ _ _ (le_n _)) in H.
        cbn [String.length] in H. lia.
      * intros [H|[_ H]]; discriminate H.
    + destruct (contains backslash (String c rest)) eqn:Hb.
      * split.
        -- intros H.
           apply (read_plain_length _ _ _ (le_n _)) in H as [_ H].
           specialize (H Hb). lia.
        -- intros [H|[H _]]; discriminate H.
      * split; [now right|]. intros _. now apply read_plain_plain.
Qed.

Lemma quote_conninfo_roundtrip_witness :
  parse_conninfo_value (quote_conninfo "it's a\b") = Some "it's a\b" /\
  parse_conninfo_value (quote_conninfo "O'Brien") = Some "O'Brien".
Proof.
  split.
  - apply (quote_conninfo_roundtrip "it's a\b"). left. reflexivity.
  - apply (quote_conninfo_roundtrip "O'Brien"). right. split; reflexivity.
Defined.

(** C8: when [dbname] is not a DSN (non-empty, without [=]),
    [build_conninfo] composes the pairs host, port, user, dbname in that
    order, leaving out the unset ones, each value quoted by the rule:
    unmodified without whitespace, otherwise in single quotes with
    backslashes and single quotes escaped. *)
Theorem build_conninfo_composes (config : Config) (d : string) :
  dbname config = Some d ->
  d <> EmptyString ->
  contains equals_sign d = false ->
  build_conninfo config = conninfo_spec config /\
  (forall v, v <> EmptyString -> quote_conninfo v = quote_spec v).
Proof.
  intros Hd Hne Heq. split; [|apply quote_conninfo_quote_spec].
  unfold build_conninfo, conninfo_spec. rewrite Hd, Heq.
  destruct d as [|c rest]; [congruence|].
  cbn [String.eqb orb].
  rewrite !append_part_pair_spec, app_nil_l, <- !app_assoc. reflexivity.
Qed.

Lemma build_conninfo_composes_witness :
  build_conninfo (with_conn sample_config (Some "db host") (Some "5432") None
                    (Some "postgres"))
  = "host='db host' port=5432 dbname=postgres".
Proof.
  apply (build_conninfo_composes
           (with_conn sample_config (Some "db host") (Some "5432") None
              (Some "postgres")) "postgres").
  - reflexivity.
  - discriminate.
  - reflexivity.
Defined.

(* ===================================================================== *)
(** * The shape of a run *)
(* ===================================================================== *)

Lemma count_app (p : event -> bool) (t1 t2 : trace) :
  count p (t1 ++ t2) = (count p t1 + count p t2)%nat.
Proof.
  induction t1 as [|e t1 IH]; [reflexivity|].
  cbn [app count]. rewrite IH. lia.
Qed.

Lemma before_resolution_app (t1 t2 : trace) :
  count is_resolution t1 = 0%nat ->
  before_resolution (t1 ++ t2) = t1 ++ before_resolution t2.
Proof.
  induction t1 as [|e t1 IH]; [reflexivity|].
  cbn [app count before_resolution].
  destruct (is_resolution e); [discriminate|].
  intros H. now rewrite IH.
Qed.

(** The [except] clauses only log. *)
Lemma handler_log_is_log (o : outcome unit) (ev : event) :
  ev ∈ handler_log o -> is_log ev = true.
Proof.
  destruct o as [a|[cls arg]]; [intros H; not_in_trace H|].
  destruct cls; cbn; intros H;
    repeat (apply elem_of_cons in H; destruct H as [->|H]; [reflexivity|]);
    now apply elem_of_nil in H.
Qed.

Lemma count_handler_log (p : event -> bool) (o : outcome unit) :
  (forall ev, is_log ev = true -> p ev = false) ->
  count p (handler_log o) = 0%nat.
Proof.
  intros Hp.
  assert (H : forall ev, ev ∈ handler_log o -> p ev = false).
  { intros ev Hev. apply Hp. now apply handler_log_is_log in Hev. }
  induction (handler_log o) as [|e t IH]; [reflexivity|].
  cbn [count]. rewrite (H e) by apply list_elem_of_here.
  apply IH. intros ev Hev. apply H. now apply list_elem_of_further.
Qed.

(** The [try] statement: the trace of the body, what the handler logged,
    and the removal of the temporary directory; it ends as the handlers
    decide. *)
Lemma main_try_eq (w : World) (environ : gmap string string)
    (config : Config) (tempdir : string) :
  main_try w environ config tempdir =
  (trace_of (main_body w environ config tempdir)
     ++ handler_log (outcome_of (main_body w environ config tempdir))
     ++ [(Rmtree tempdir true, Returned PNone)],
   handled (outcome_of (main_body w environ config tempdir))).
Proof.
  unfold main_try, try_finally, try_except, shutil_rmtree, invoke,
    handler_log, handled, trace_of, outcome_of.
  destruct (main_body w environ config tempdir) as [t [a|e]];
    cbn [fst snd].
  - destruct (rmtree w tempdir); reflexivity.
  - destruct (select_handler main_handlers e) as [[t' r]|];
      destruct (rmtree w tempdir); cbn; now rewrite <- ?app_assoc.
Qed.

(** A run either stops before the temporary directory exists, or runs the
    [try] statement. *)
Lemma main_cases (w : World) (environ : gmap string string) (args : list string) :
  (exists e, main w environ args = ([(ParseArguments args, Raised e)], Raise e)) \/
  (exists e, main w environ args =
     ([(ParseArguments args, Returned PObject); (ConfigureLogging, Raised e)],
      Raise e)) \/
  (exists e, main w environ args =
     ([(ParseArguments args, Returned PObject);
       (ConfigureLogging, Returned PNone);
       (Mkdtemp "barman-cloud-backup-", Raised e)], Raise e)) \/
  (exists config tempdir,
     parse_arguments w args = Return config /\
     main w environ args =
     ([(ParseArguments args, Returned PObject);
       (ConfigureLogging, Returned PNone);
       (Mkdtemp "barman-cloud-backup-", Returned (PStr tempdir))]
        ++ trace_of (main_body w environ config tempdir)
        ++ handler_log (outcome_of (main_body w environ config tempdir))
        ++ [(Rmtree tempdir true, Returned PNone)],
      handled (outcome_of (main_body w environ config tempdir)))).
Proof.
  unfold main, invoke, mbind, M_bind.
  destruct (parse_arguments w args) as [config|e] eqn:Hp; [|left; eauto].
  destruct (configure_logging w config) as [[]|e]; [|right; left; eauto].
  destruct (mkdtemp w "barman-cloud-backup-") as [tempdir|e];
    [|right; right; left; eauto].
  right; right; right. exists config, tempdir. split; [reflexivity|].
  rewrite main_try_eq. reflexivity.
Qed.

Lemma before_resolution_app_resolved (t1 t2 : trace) :
  count is_resolution t1 <> 0%nat ->
  before_resolution (t1 ++ t2) = before_resolution t1.
Proof.
  induction t1 as [|e t1 IH]; [intros H; now contradiction H|].
  cbn [app count before_resolution].
  destruct (is_resolution e); [reflexivity|].
  intros H. now rewrite IH.
Qed.

(** An event of the run that is not one of the fixed calls around the body,
    and is not a log entry, is an event of the body. *)
Lemma in_run_body (ev rm : event) (pre tb : trace) (o : outcome unit) :
  ev ∈ pre ++ tb ++ handler_log o ++ [rm] ->
  is_log ev = false -> ev ∉ pre -> ev <> rm -> ev ∈ tb.
Proof.
  intros H Hlog Hpre Hrm.
  apply elem_of_app in H as [H|H]; [contradiction|].
  apply elem_of_app in H as [H|H]; [assumption|].
  apply elem_of_app in H as [H|H].
  - apply handler_log_is_log in H. congruence.
  - apply elem_of_cons in H as [H|H]; [contradiction|].
    now apply elem_of_nil in H.
Qed.

(* ===================================================================== *)
(** * The body of [main], path by path *)
(* ===================================================================== *)

Lemma body_counts (w : World) (environ : gmap string string)
    (config : Config) (tempdir : string) :
  let t := trace_of (main_body w environ config tempdir) in
  count is_postgres_close t = count is_connected t /\
  (count is_connected t <= 1)%nat /\
  count is_rmtree t = 0%nat.
Proof. body_cases; repeat split; (reflexivity || lia). Qed.

Lemma body_resolution (w : World) (environ : gmap string string)
    (config : Config) (tempdir : string) :
  let t := trace_of (main_body w environ config tempdir) in
  (count is_resolution t <= 1)%nat /\
  (count is_resolution t = 1%nat ->
   before_resolution t =
   [(SetTempdir tempdir, Returned PNone);
    (GetCloudInterface (destination_url config), Returned PObject);
    (TestConnectivity, Returned (PBool true));
    (SetupBucket, Returned PNone)]).
Proof.
  body_cases; (split; [lia | intros H; (reflexivity || discriminate H)]).
Qed.

Lemma body_probe_failed (w : World) (environ : gmap string string)
    (config : Config) (tempdir : string) :
  (TestConnectivity, Returned (PBool false))
    ∈ trace_of (main_body w environ config tempdir) ->
  main_body w environ config tempdir =
  ([(SetTempdir tempdir, Returned PNone);
    (GetCloudInterface (destination_url config), Returned PObject);
    (TestConnectivity, Returned (PBool false))],
   Raise (Exn SystemExit (ArgInt 1))).
Proof. body_cases; intros H; first [reflexivity | not_in_trace H]. Qed.

Lemma body_test_only (w : World) (environ : gmap string string)
    (config : Config) (tempdir : string) :
  test config = true ->
  (TestConnectivity, Returned (PBool true))
    ∈ trace_of (main_body w environ config tempdir) ->
  main_body w environ config tempdir =
  ([(SetTempdir tempdir, Returned PNone);
    (GetCloudInterface (destination_url config), Returned PObject);
    (TestConnectivity, Returned (PBool true))],
   Raise (Exn SystemExit (ArgInt 0))).
Proof.
  intros Htest. body_cases; intros H; first [reflexivity | not_in_trace H].
Qed.

Lemma body_hook_status (w : World) (environ : gmap string string)
    (config : Config) (tempdir : string) :
  in_environ "BARMAN_BACKUP_DIR" environ = true ->
  in_environ "BARMAN_BACKUP_ID" environ = true ->
  bool_decide (getenv environ "BARMAN_STATUS" = Some "DONE") = false ->
  (IsHookScript, Returned (PBool true))
    ∈ trace_of (main_body w environ config tempdir) ->
  cloud_released (trace_of (main_body w environ config tempdir)) ->
  outcome_of (main_body w environ config tempdir) =
  Raise (Exn UnrecoverableHookScriptError (ArgStr
    ("backup in '" +:+ fmt_s (getenv environ "BARMAN_BACKUP_DIR")
       +:+ "' has status '" +:+ fmt_s (getenv environ "BARMAN_STATUS")
       +:+ "' (status should be: DONE)"))).
Proof.
  intros Hdir Hid Hstatus.
  body_cases; intros H Hc;
    first [reflexivity | discriminate Hc | not_in_trace H].
Qed.

Lemma body_resolution_raises (w : World) (environ : gmap string string)
    (config : Config) (tempdir : string) (e : exn) :
  __is_hook_script environ = Raise e ->
  resolved (trace_of (main_body w environ config tempdir)) ->
  cloud_released (trace_of (main_body w environ config tempdir)) ->
  outcome_of (main_body w environ config tempdir) = Raise e.
Proof.
  intros He.
  body_cases; intros H Hc; first [reflexivity | discriminate Hc | discriminate H].
Qed.

Lemma body_direct (w : World) (environ : gmap string string)
    (config : Config) (tempdir : string) :
  __is_hook_script environ = Return false ->
  let t := trace_of (main_body w environ config tempdir) in
  count is_hook_uploader t = 0%nat /\
  (resolved t ->
   exists r,
     (NewPostgreSQLConnection (build_conninfo config)
        (immediate_checkpoint config) "barman_cloud_backup", r) ∈ t).
Proof.
  intros He.
  body_cases; (split; [reflexivity|]); intros H;
    first [discriminate H | eexists; in_trace].
Qed.

(* ===================================================================== *)
(** * Execution-mode resolution *)
(* ===================================================================== *)

Lemma is_hook_script_unsupported (environ : gmap string string)
    (hook phase : string) :
  environ !! "BARMAN_HOOK" = Some hook ->
  environ !! "BARMAN_PHASE" = Some phase ->
  ~ ((hook = "backup_script" \/ hook = "backup_retry_script") /\ phase = "post") ->
  __is_hook_script environ =
  Raise (Exn BarmanException (ArgStr
    ("barman-cloud-backup called as unsupported hook script: "
       +:+ phase +:+ "_" +:+ hook))).
Proof.
  intros Hh Hp Hn. unfold __is_hook_script, in_environ, getenv.
  rewrite Hh, Hp. cbn [fmt_s].
  rewrite !bool_decide_eq_true_2 by eauto. cbn [andb].
  repeat case_bool_decide; simplify_eq; cbn [orb andb]; try reflexivity;
    exfalso; apply Hn; auto.
Qed.

Lemma is_hook_script_one_marker (environ : gmap string string) :
  environ !! "BARMAN_HOOK" = None \/ environ !! "BARMAN_PHASE" = None ->
  __is_hook_script environ = Return false.
Proof.
  intros H. unfold __is_hook_script, in_environ.
  destruct H as [H|H]; rewrite H.
  - rewrite (bool_decide_eq_false_2 (is_Some None)) by (intros [? ?]; discriminate).
    reflexivity.
  - rewrite (bool_decide_eq_false_2 (is_Some None)) by (intros [? ?]; discriminate).
    now rewrite andb_false_r.
Qed.

Lemma in_environ_Some (environ : gmap string string) (name v : string) :
  environ !! name = Some v -> in_environ name environ = true.
Proof. intros H. unfold in_environ. rewrite H. apply bool_decide_eq_true_2. eauto. Qed.

(* ===================================================================== *)
(** * Claims about runs *)
(* ===================================================================== *)

(** C5: in every run where the connectivity probe fails (returns false),
    the process exits with code 1 and [setup_bucket] is never called. *)
Theorem probe_failure_exits_1 (w : World) (environ : gmap string string)
    (args : list string) :
  (TestConnectivity, Returned (PBool false)) ∈ trace_of (main w environ args) ->
  exit_code (outcome_of (main w environ args)) = Some 1 /\
  count is_provisioning (trace_of (main w environ args)) = 0%nat.
Proof.
  intros H. run_cases (main_cases w environ args).
  1-3: not_in_trace H.
  apply in_run_body in H; [|reflexivity|intros H'; not_in_trace H'|discriminate].
  apply body_probe_failed in H. rewrite H. split; reflexivity.
Qed.

(** C4: in every run where the test-only flag is set and the connectivity
    probe succeeds, the process exits with code 0, and neither
    [setup_bucket] nor any transfer is called. *)
Theorem test_only_exits_0 (w : World) (environ : gmap string string)
    (args : list string) (config : Config) :
  parse_arguments w args = Return config ->
  test config = true ->
  (TestConnectivity, Returned (PBool true)) ∈ trace_of (main w environ args) ->
  exit_code (outcome_of (main w environ args)) = Some 0 /\
  count is_provisioning (trace_of (main w environ args)) = 0%nat /\
  count is_transfer (trace_of (main w environ args)) = 0%nat.
Proof.
  intros Hc Htest H. run_cases (main_cases w environ args).
  1-3: not_in_trace H.
  rewrite Hparse in Hc. injection Hc as ->.
  apply in_run_body in H; [|reflexivity|intros H'; not_in_trace H'|discriminate].
  apply (body_test_only _ _ _ _ Htest) in H. rewrite H. repeat split; reflexivity.
Qed.

(** C6: in every run, whatever raises and wherever, the temporary
    directory that was created is removed by the last call of the run, with
    removal errors ignored, and a database connection that was opened is
    closed exactly once (one that was not opened is never closed). *)
Theorem teardown_always (w : World) (environ : gmap string string)
    (args : list string) :
  let t := trace_of (main w environ args) in
  (forall dir, created_tempdir t = Some dir ->
     last t = Some (Rmtree dir true, Returned PNone) /\
     count is_rmtree t = 1%nat) /\
  ((0 < count is_connected t)%nat -> count is_postgres_close t = 1%nat) /\
  (count is_connected t = 0%nat -> count is_postgres_close t = 0%nat).
Proof.
  run_cases (main_cases w environ args).
  1-3: cbn; repeat split; (discriminate || lia).
  pose proof (body_counts w environ config tempdir) as (Hpg & Hle & Hrm).
  unfold trace_of in *.
  rewrite !count_app, !count_handler_log by no_log_event.
  rewrite Hrm, Hpg. split; [|cbn; lia].
  intros dir Hd. cbn in Hd. injection Hd as <-.
  split; [|cbn; lia]. now rewrite !app_assoc, last_snoc.
Qed.

(** C1, amended: [__is_hook_script] is called at most once per run, and
    only after the connectivity probe has succeeded and [setup_bucket] has
    returned; no uploader or database call comes before it. *)
Theorem resolution_after_provisioning (w : World)
    (environ : gmap string string) (args : list string) :
  let t := trace_of (main w environ args) in
  (count is_resolution t <= 1)%nat /\
  (resolved t ->
   (TestConnectivity, Returned (PBool true)) ∈ before_resolution t /\
   (SetupBucket, Returned PNone) ∈ before_resolution t /\
   count is_uploader_or_database (before_resolution t) = 0%nat).
Proof.
  unfold resolved. run_cases (main_cases w environ args).
  1-3: cbn; split; [lia | discriminate].
  pose proof (body_resolution w environ config tempdir) as (Hle & Hshape).
  unfold trace_of in *.
  rewrite !count_app, !count_handler_log by no_log_event.
  cbn [count is_resolution fst].
  split; [lia|]. intros Hres.
  rewrite before_resolution_app by reflexivity.
  rewrite before_resolution_app_resolved by lia.
  rewrite Hshape by lia.
  split; [in_trace | split; [in_trace | reflexivity]].
Qed.

(** C3, amended: when the run is resolved as an approved hook-script
    invocation, [BARMAN_BACKUP_DIR] and [BARMAN_BACKUP_ID] are both set and
    [BARMAN_STATUS] is anything but [DONE] (absent included), the body
    raises [UnrecoverableHookScriptError] with a message that carries the
    directory and the status, the message is logged and, the storage client
    being released without error, the process exits with code 63. *)
Theorem hook_status_not_done (w : World) (environ : gmap string string)
    (args : list string) (dir id : string) :
  (IsHookScript, Returned (PBool true)) ∈ trace_of (main w environ args) ->
  environ !! "BARMAN_BACKUP_DIR" = Some dir ->
  environ !! "BARMAN_BACKUP_ID" = Some id ->
  environ !! "BARMAN_STATUS" <> Some "DONE" ->
  cloud_released (trace_of (main w environ args)) ->
  let msg := "backup in '" +:+ dir +:+ "' has status '"
               +:+ fmt_s (environ !! "BARMAN_STATUS")
               +:+ "' (status should be: DONE)" in
  (exists config tempdir,
     outcome_of (main_body w environ config tempdir) =
     Raise (Exn UnrecoverableHookScriptError (ArgStr msg))) /\
  (LogError ("Barman cloud backup exception: " +:+ msg), Returned PNone)
    ∈ trace_of (main w environ args) /\
  exit_code (outcome_of (main w environ args)) = Some 63.
Proof.
  intros H Hdir Hid Hstatus Hc msg. unfold cloud_released in Hc.
  run_cases (main_cases w environ args).
  1-3: not_in_trace H.
  apply in_run_body in H; [|reflexivity|intros H'; not_in_trace H'|discriminate].
  rewrite !count_app in Hc.
  apply body_hook_status in H;
    [ | now apply in_environ_Some with dir | now apply in_environ_Some with id
      | now apply bool_decide_eq_false_2 | unfold cloud_released, trace_of; lia ].
  unfold getenv in H. rewrite Hdir in H. cbn [fmt_s] in H. fold msg in H.
  unfold outcome_of in H.
  split; [exists config, tempdir; exact H|].
  rewrite H. split; [|reflexivity].
  apply elem_of_app; right. apply elem_of_app; right.
  apply elem_of_app; left. apply list_elem_of_here.
Qed.

(** C9, amended: when both hook markers are present and the pair is not an
    approved hook with phase [post], [__is_hook_script] raises an error
    whose message names the phase and the hook; in every run that performs
    the resolution, the storage client being released without error, that
    message is logged and the process exits with code 1. *)
Theorem unsupported_hook_fails (environ : gmap string string)
    (hook phase : string) :
  environ !! "BARMAN_HOOK" = Some hook ->
  environ !! "BARMAN_PHASE" = Some phase ->
  ~ ((hook = "backup_script" \/ hook = "backup_retry_script") /\ phase = "post") ->
  let msg := "barman-cloud-backup called as unsupported hook script: "
               +:+ phase +:+ "_" +:+ hook in
  __is_hook_script environ = Raise (Exn BarmanException (ArgStr msg)) /\
  forall (w : World) (args : list string),
    resolved (trace_of (main w environ args)) ->
    cloud_released (trace_of (main w environ args)) ->
    (LogError ("Barman cloud backup exception: " +:+ msg), Returned PNone)
      ∈ trace_of (main w environ args) /\
    exit_code (outcome_of (main w environ args)) = Some 1.
Proof.
  intros Hh Hp Hn msg.
  pose proof (is_hook_script_unsupported environ hook phase Hh Hp Hn) as He.
  fold msg in He. split; [exact He|].
  intros w args Hres Hc. unfold resolved, cloud_released in *.
  run_cases (main_cases w environ args).
  1-3: discriminate Hres.
  rewrite !count_app, ?count_handler_log in Hres, Hc by no_log_event.
  cbn [count is_resolution is_cloud_close_raised fst] in Hres, Hc.
  assert (Hb : snd (main_body w environ config tempdir)
               = Raise (Exn BarmanException (ArgStr msg))).
  { apply (body_resolution_raises w environ config tempdir _ He);
      unfold resolved, cloud_released, trace_of; lia. }
  rewrite Hb.
  split; [|reflexivity].
  apply elem_of_app; right. apply elem_of_app; right.
  apply elem_of_app; left. apply list_elem_of_here.
Qed.

(** When the storage client is reachable, the run is not a test and the
    bucket is set up, the body resolves the mode; when the resolution says
    no hook, it constructs the PostgreSQL connection next. *)
Lemma body_direct_dispatch (w : World) (environ : gmap string string)
    (config : Config) (tempdir : string) (ci : CloudInterface.t) :
  __is_hook_script environ = Return false ->
  get_cloud_interface w (destination_url config) (encryption config)
    (jobs config) (profile config) (endpoint_url config)
    (cloud_provider config) (encryption_scope config) = Return ci ->
  CloudInterface.test_connectivity ci = Return true ->
  test config = false ->
  CloudInterface.setup_bucket ci = Return tt ->
  (IsHookScript, Returned (PBool false))
    ∈ trace_of (main_body w environ config tempdir) /\
  (NewPostgreSQLConnection (build_conninfo config)
     (immediate_checkpoint config) "barman_cloud_backup",
   observe_outcome
     (PostgreSQLConnection w (build_conninfo config)
        (immediate_checkpoint config) "barman_cloud_backup"))
    ∈ trace_of (main_body w environ config tempdir).
Proof.
  intros He Hci Hprobe Htest Hsetup.
  body_cases_eq; first [exfalso; congruence | split; in_trace].
Qed.

(** C10: when exactly one of [BARMAN_HOOK] and [BARMAN_PHASE] is present,
    [__is_hook_script] returns false without raising, so that the run
    proceeds in direct-database mode: no run takes the hook-script branch,
    and a run whose probe succeeds, that is not a test and whose bucket is
    set up resolves to false and constructs the PostgreSQL connection from
    [build_conninfo]. *)
Theorem one_marker_is_direct (environ : gmap string string) :
  (is_Some (environ !! "BARMAN_HOOK") /\ environ !! "BARMAN_PHASE" = None) \/
  (environ !! "BARMAN_HOOK" = None /\ is_Some (environ !! "BARMAN_PHASE")) ->
  __is_hook_script environ = Return false /\
  forall (w : World) (args : list string),
    let t := trace_of (main w environ args) in
    count is_hook_uploader t = 0%nat /\
    (resolved t ->
     exists config r,
       parse_arguments w args = Return config /\
       (NewPostgreSQLConnection (build_conninfo config)
          (immediate_checkpoint config) "barman_cloud_backup", r) ∈ t) /\
    (forall (config : Config) (tempdir : string) (ci : CloudInterface.t),
       parse_arguments w args = Return config ->
       configure_logging w config = Return tt ->
       mkdtemp w "barman-cloud-backup-" = Return tempdir ->
       get_cloud_interface w (destination_url config) (encryption config)
         (jobs config) (profile config) (endpoint_url config)
         (cloud_provider config) (encryption_scope config) = Return ci ->
       CloudInterface.test_connectivity ci = Return true ->
       test config = false ->
       CloudInterface.setup_bucket ci = Return tt ->
       (IsHookScript, Returned (PBool false)) ∈ t /\
       (NewPostgreSQLConnection (build_conninfo config)
          (immediate_checkpoint config) "barman_cloud_backup",
        observe_outcome
          (PostgreSQLConnection w (build_conninfo config)
             (immediate_checkpoint config) "barman_cloud_backup")) ∈ t).
Proof.
  intros Hone.
  assert (He : __is_hook_script environ = Return false).
  { apply is_hook_script_one_marker. destruct Hone as [[_ H]|[H _]]; auto. }
  split; [exact He|]. intros w args. split; [|split].
  - run_cases (main_cases w environ args).
    1-3: reflexivity.
    pose proof (body_direct w environ config tempdir He) as (Hnone & _).
    unfold trace_of in *.
    rewrite !count_app, !count_handler_log by no_log_event.
    now rewrite Hnone.
  - unfold resolved. run_cases (main_cases w environ args).
    1-3: discriminate.
    pose proof (body_direct w environ config tempdir He) as (_ & Hpg).
    unfold resolved, trace_of in *.
    rewrite !count_app, !count_handler_log by no_log_event.
    cbn [count is_resolution fst]. intros Hres.
    destruct Hpg as [r Hr]; [lia|].
    exists config, r. split; [assumption|].
    apply elem_of_app; right. apply elem_of_app; left. exact Hr.
  - intros config tempdir ci Hparse Hlog Hmk Hci Hprobe Htest Hsetup.
    destruct (body_direct_dispatch w environ config tempdir ci
                He Hci Hprobe Htest Hsetup) as [Hres Hpg].
    assert (E : trace_of (main w environ args) =
                [(ParseArguments args, Returned PObject);
                 (ConfigureLogging, Returned PNone);
                 (Mkdtemp "barman-cloud-backup-", Returned (PStr tempdir))]
                  ++ trace_of (main_body w environ config tempdir)
                  ++ handler_log (outcome_of (main_body w environ config tempdir))
                  ++ [(Rmtree tempdir true, Returned PNone)]).
    { unfold main, invoke, mbind, M_bind. rewrite Hparse, Hlog, Hmk.
      rewrite main_try_eq. reflexivity. }
    rewrite E.
    split; (apply elem_of_app; right; apply elem_of_app; left; assumption).
Qed.

(* ===================================================================== *)
(** * The claims at concrete runs *)
(* ===================================================================== *)

Lemma probe_failure_exits_1_witness :
  exit_code (outcome_of (main world_unreachable env_direct sample_args)) = Some 1 /\
  count is_provisioning (trace_of (main world_unreachable env_direct sample_args)) = 0%nat.
Proof.
  apply (probe_failure_exits_1 world_unreachable env_direct sample_args).
  vm_compute. in_trace.
Defined.

Lemma test_only_exits_0_witness :
  exit_code (outcome_of (main world_test_only env_direct sample_args)) = Some 0 /\
  count is_provisioning (trace_of (main world_test_only env_direct sample_args)) = 0%nat /\
  count is_transfer (trace_of (main world_test_only env_direct sample_args)) = 0%nat.
Proof.
  apply (test_only_exits_0 world_test_only env_direct sample_args
           (with_test sample_config true)).
  - reflexivity.
  - reflexivity.
  - vm_compute. in_trace.
Defined.

Lemma teardown_always_witness :
  last (trace_of (main world_interrupted env_direct sample_args))
  = Some (Rmtree "/tmp/barman-cloud-backup-k3x9" true, Returned PNone) /\
  count is_postgres_close (trace_of (main world_interrupted env_direct sample_args))
  = 1%nat.
Proof.
  destruct (teardown_always world_interrupted env_direct sample_args)
    as (Hdir & Hclose & _).
  split.
  - apply (Hdir "/tmp/barman-cloud-backup-k3x9"). vm_compute. reflexivity.
  - apply Hclose. vm_compute. lia.
Defined.

(** C1, as stated, fails: in a plain successful run the probe and
    provisioning are called before [__is_hook_script], and in a run whose
    probe fails [__is_hook_script] is not called at all. *)
Lemma resolution_first_counterexample :
  ~ resolution_first (trace_of (main world_ok env_direct sample_args)) /\
  ~ resolution_first (trace_of (main world_unreachable env_direct sample_args)).
Proof.
  split; intros (Honce & Hprobe & Hprov).
  - vm_compute in Hprobe. discriminate Hprobe.
  - vm_compute in Honce. discriminate Honce.
Qed.

Lemma resolution_after_provisioning_witness :
  (TestConnectivity, Returned (PBool true))
    ∈ before_resolution (trace_of (main world_ok env_direct sample_args)) /\
  (SetupBucket, Returned PNone)
    ∈ before_resolution (trace_of (main world_ok env_direct sample_args)) /\
  count is_uploader_or_database
    (before_resolution (trace_of (main world_ok env_direct sample_args))) = 0%nat.
Proof.
  apply (resolution_after_provisioning world_ok env_direct sample_args).
  vm_compute. reflexivity.
Defined.

(** C3, as stated, fails: an approved hook invocation with status
    [RUNNING] but without [BARMAN_BACKUP_DIR] ends with a [BarmanException]
    and exit code 1, not 63. *)
Lemma hook_status_counterexample :
  (IsHookScript, Returned (PBool true))
    ∈ trace_of (main world_ok env_hook_no_dir sample_args) /\
  env_hook_no_dir !! "BARMAN_STATUS" <> Some "DONE" /\
  cloud_released (trace_of (main world_ok env_hook_no_dir sample_args)) /\
  (LogError "Barman cloud backup exception: BARMAN_BACKUP_DIR environment variable not set",
   Returned PNone) ∈ trace_of (main world_ok env_hook_no_dir sample_args) /\
  exit_code (outcome_of (main world_ok env_hook_no_dir sample_args)) = Some 1.
Proof.
  split; [vm_compute; in_trace|].
  split; [vm_compute; discriminate|].
  split; [vm_compute; reflexivity|].
  split; [vm_compute; in_trace | vm_compute; reflexivity].
Qed.

Lemma hook_status_not_done_witness :
  exit_code (outcome_of (main world_ok (env_hook_backup "RUNNING") sample_args))
  = Some 63.
Proof.
  apply (hook_status_not_done world_ok (env_hook_backup "RUNNING") sample_args
           "/var/lib/barman/pg/base/20210101T000000" "20210101T000000").
  - vm_compute. in_trace.
  - reflexivity.
  - reflexivity.
  - vm_compute. discriminate.
  - vm_compute. reflexivity.
Defined.

(** C9, as stated, fails: with the test-only flag set, a run under an
    unsupported hook/phase pair ends after the probe with exit code 0; the
    resolution is never performed and nothing is logged. *)
Lemma unsupported_hook_counterexample :
  env_hook "archive_script" "pre" !! "BARMAN_HOOK" = Some "archive_script" /\
  env_hook "archive_script" "pre" !! "BARMAN_PHASE" = Some "pre" /\
  count is_resolution
    (trace_of (main world_test_only (env_hook "archive_script" "pre") sample_args))
  = 0%nat /\
  count is_log
    (trace_of (main world_test_only (env_hook "archive_script" "pre") sample_args))
  = 0%nat /\
  exit_code
    (outcome_of (main world_test_only (env_hook "archive_script" "pre") sample_args))
  = Some 0.
Proof. repeat split; vm_compute; reflexivity. Qed.

Lemma unsupported_hook_fails_witness :
  __is_hook_script (env_hook "archive_script" "pre")
  = Raise (Exn BarmanException (ArgStr
      "barman-cloud-backup called as unsupported hook script: pre_archive_script")) /\
  exit_code
    (outcome_of (main world_ok (env_hook "archive_script" "pre") sample_args))
  = Some 1.
Proof.
  destruct (unsupported_hook_fails (env_hook "archive_script" "pre")
              "archive_script" "pre") as [Hraise Hrun].
  - reflexivity.
  - reflexivity.
  - intros [[H|H] _]; discriminate H.
  - split; [exact Hraise|].
    apply (Hrun world_ok sample_args); vm_compute; reflexivity.
Defined.

Lemma one_marker_is_direct_witness :
  __is_hook_script (<["BARMAN_HOOK" := "backup_script"]> ∅) = Return false /\
  (IsHookScript, Returned (PBool false))
    ∈ trace_of (main world_ok (<["BARMAN_HOOK" := "backup_script"]> ∅) sample_args) /\
  (NewPostgreSQLConnection "dbname=postgres" false "barman_cloud_backup",
   Returned PObject)
    ∈ trace_of (main world_ok (<["BARMAN_HOOK" := "backup_script"]> ∅) sample_args).
Proof.
  destruct (one_marker_is_direct (<["BARMAN_HOOK" := "backup_script"]> ∅))
    as [Hfalse Hrun].
  - left. split; [eexists; reflexivity | reflexivity].
  - split; [exact Hfalse|].
    destruct (Hrun world_ok sample_args) as (_ & _ & Hdirect).
    apply (Hdirect sample_config "/tmp/barman-cloud-backup-k3x9"
             (sample_cloud true)); reflexivity.
Defined.

(** Why the exit codes of C3 and C9 need the storage client to be released
    without error: an interrupt during its [close] replaces the pending
    exception, and the run ends with the exit code of an interruption. *)
Example close_interrupted_exit_code :
  exit_code
    (outcome_of (main world_close_interrupted (env_hook_backup "RUNNING") sample_args))
  = Some 1.
Proof. vm_compute. reflexivity. Qed.

(** A value with a backslash and no whitespace is not escaped either; read
    back, the backslash is gone. *)
Example quote_conninfo_backslash :
  quote_conninfo "C:\pg" = "C:\pg" /\
  parse_conninfo_value (quote_conninfo "C:\pg") = Some "C:pg".
Proof. split; reflexivity. Qed.

(** A hook invocation with status [DONE] hands the directory and the
    identifier to the hook uploader. *)
Example hook_done_run :
  (NewUploaderBarman (Some "/var/lib/barman/pg/base/20210101T000000")
     (Some "20210101T000000"), Returned PObject)
    ∈ trace_of (main world_ok (env_hook_backup "DONE") sample_args) /\
  exit_code (outcome_of (main world_ok (env_hook_backup "DONE") sample_args))
  = Some 0.
Proof. split; vm_compute; [in_trace | reflexivity]. Qed.

(* ===================================================================== *)
(** * Further properties of the script *)
(* ===================================================================== *)

Lemma has_whitespace_app (a b : string) :
  has_whitespace (a +:+ b) = has_whitespace a || has_whitespace b.
Proof.
  induction a as [|c a IH]; [reflexivity|].
  rewrite append_cons. cbn [has_whitespace]. now rewrite IH, orb_assoc.
Qed.

Lemma has_whitespace_escape (value : string) :
  has_whitespace (escape value) = has_whitespace value.
Proof.
  induction value as [|c rest IH]; [reflexivity|].
  cbn [escape].
  destruct (Ascii.eqb c backslash || Ascii.eqb c squote); cbn [has_whitespace];
    now rewrite IH.
Qed.

(** The quoted form of a value. *)
Lemma quote_conninfo_whitespace (value : string) :
  has_whitespace value = true ->
  quote_conninfo value = String squote (escape value +:+ String squote EmptyString).
Proof.
  intros H. rewrite quote_conninfo_quote_spec by now apply has_whitespace_nonempty.
  unfold quote_spec. now rewrite H.
Qed.

Lemma quote_conninfo_plain (value : string) :
  value <> EmptyString -> has_whitespace value = false ->
  quote_conninfo value = value.
Proof.
  intros Hne H. rewrite quote_conninfo_quote_spec by assumption.
  unfold quote_spec. now rewrite H.
Qed.

Lemma has_whitespace_quoted (value : string) :
  has_whitespace (String squote (escape value +:+ String squote EmptyString))
  = has_whitespace value.
Proof.
  cbn [has_whitespace]. rewrite has_whitespace_app, has_whitespace_escape.
  change (is_space squote) with false. cbn [has_whitespace orb].
  change (is_space squote) with false. now rewrite orb_false_r.
Qed.

Lemma escape_quote_inj (a b : string) :
  escape a +:+ String squote EmptyString = escape b +:+ String squote EmptyString ->
  a = b.
Proof.
  revert b. induction a as [|c a IH]; intros [|d b] H; [reflexivity| | |].
  - exfalso. cbn [escape] in H.
    destruct (Ascii.eqb d backslash) eqn:Hb; cbn [orb] in H.
    + rewrite !append_cons in H. discriminate H.
    + destruct (Ascii.eqb d squote) eqn:Hq; rewrite !append_cons in H.
      * discriminate H.
      * injection H as H _. subst d. discriminate Hq.
  - exfalso. cbn [escape] in H.
    destruct (Ascii.eqb c backslash) eqn:Hb; cbn [orb] in H.
    + rewrite !append_cons in H. discriminate H.
    + destruct (Ascii.eqb c squote) eqn:Hq; rewrite !append_cons in H.
      * discriminate H.
      * injection H as H _. subst c. discriminate Hq.
  - cbn [escape] in H.
    destruct (Ascii.eqb c backslash || Ascii.eqb c squote) eqn:Hc;
      destruct (Ascii.eqb d backslash || Ascii.eqb d squote) eqn:Hd;
      rewrite !append_cons in H.
    + injection H as -> H. f_equal. now apply IH.
    + injection H as <- H. now rewrite Ascii.eqb_refl in Hd.
    + injection H as -> H. now rewrite Ascii.eqb_refl in Hc.
    + injection H as -> H. f_equal. now apply IH.
Qed.

(** X1: two values that [quote_conninfo] turns into the same text are
    equal, with one exception: the empty value and the value made of two
    single quotes both give two single quotes. *)
Theorem quote_conninfo_collisions (v1 v2 : string) :
  quote_conninfo v1 = quote_conninfo v2 ->
  v1 = v2 \/ (v1 = "" /\ v2 = "''") \/ (v1 = "''" /\ v2 = "").
Proof.
  assert (Hempty : forall v, quote_conninfo "" = quote_conninfo v -> v = "" \/ v = "''").
  { intros v H. destruct v as [|c r]; [now left|right].
    destruct (has_whitespace (String c r)) eqn:Hw.
    - rewrite (quote_conninfo_whitespace _ Hw) in H.
      apply (f_equal has_whitespace) in H.
      rewrite has_whitespace_quoted, Hw in H. discriminate H.
    - rewrite (quote_conninfo_plain (String c r)) in H by (discriminate || assumption).
      now rewrite <- H. }
  intros H.
  destruct v1 as [|c1 r1].
  { destruct (Hempty _ H) as [->| ->]; auto. }
  destruct v2 as [|c2 r2].
  { symmetry in H. destruct (Hempty _ H) as [Hv| ->]; [discriminate Hv|auto]. }
  left.
  destruct (has_whitespace (String c1 r1)) eqn:H1;
    destruct (has_whitespace (String c2 r2)) eqn:H2.
  - rewrite (quote_conninfo_whitespace _ H1), (quote_conninfo_whitespace _ H2) in H.
    injection H as H. now apply escape_quote_inj.
  - rewrite (quote_conninfo_whitespace _ H1),
      (quote_conninfo_plain (String c2 r2)) in H by (discriminate || assumption).
    apply (f_equal has_whitespace) in H.
    rewrite has_whitespace_quoted, H1, H2 in H. discriminate H.
  - rewrite (quote_conninfo_whitespace _ H2),
      (quote_conninfo_plain (String c1 r1)) in H by (discriminate || assumption).
    apply (f_equal has_whitespace) in H.
    rewrite has_whitespace_quoted, H1, H2 in H. discriminate H.
  - now rewrite (quote_conninfo_plain (String c1 r1)),
      (quote_conninfo_plain (String c2 r2)) in H by (discriminate || assumption).
Qed.

Lemma quote_conninfo_collisions_witness :
  "" = "''" \/ ("" = "" /\ "''" = "''") \/ ("" = "''" /\ "''" = "").
Proof. apply (quote_conninfo_collisions "" "''"). reflexivity. Defined.

Lemma length_append (a b : string) :
  String.length (a +:+ b) = (String.length a + String.length b)%nat.
Proof.
  induction a as [|c a IH]; [reflexivity|].
  rewrite append_cons. cbn [String.length]. now rewrite IH.
Qed.

Lemma length_escape (value : string) :
  (String.length value <= String.length (escape value))%nat.
Proof.
  induction value as [|c rest IH]; [reflexivity|].
  cbn [escape]. destruct (Ascii.eqb c backslash || Ascii.eqb c squote);
    cbn [String.length]; lia.
Qed.

(** X2: quoting twice: on a value without whitespace a second
    [quote_conninfo] changes nothing; on a value with whitespace it does,
    the quoted form being quoted and escaped again. *)
Theorem quote_conninfo_twice (value : string) :
  (has_whitespace value = false ->
   quote_conninfo (quote_conninfo value) = quote_conninfo value) /\
  (has_whitespace value = true ->
   quote_conninfo (quote_conninfo value) <> quote_conninfo value).
Proof.
  split; intros Hw.
  - destruct value as [|c r]; [reflexivity|].
    now rewrite !(quote_conninfo_plain (String c r)) by (discriminate || assumption).
  - rewrite (quote_conninfo_whitespace _ Hw).
    set (q := String squote (escape value +:+ String squote EmptyString)).
    assert (Hq : has_whitespace q = true)
      by (unfold q; now rewrite has_whitespace_quoted).
    rewrite (quote_conninfo_whitespace _ Hq). intros H.
    apply (f_equal String.length) in H.
    cbn [String.length] in H. rewrite length_append in H.
    cbn [String.length] in H. pose proof (length_escape q). lia.
Qed.

Lemma quote_conninfo_twice_witness :
  quote_conninfo (quote_conninfo "db1") = quote_conninfo "db1" /\
  quote_conninfo (quote_conninfo "a b") <> quote_conninfo "a b".
Proof.
  split.
  - apply (quote_conninfo_twice "db1"). reflexivity.
  - apply (quote_conninfo_twice "a b"). reflexivity.
Defined.

Lemma contains_app (c : ascii) (a b : string) :
  contains c (a +:+ b) = contains c a || contains c b.
Proof.
  induction a as [|x a IH]; [reflexivity|].
  rewrite append_cons. cbn [contains]. now rewrite IH, orb_assoc.
Qed.

(** Every pair a parameter contributes contains an equals sign. *)
Lemma pair_spec_contains (key : string) (value : option string) :
  Forall (fun part => contains equals_sign part = true) (pair_spec key value).
Proof.
  destruct value as [[|c rest]|]; cbn [pair_spec]; constructor; [|constructor].
  rewrite !contains_app. cbn. now rewrite orb_true_r.
Qed.

Lemma join_contains (c : ascii) (sep : string) (parts : list string) :
  parts <> [] ->
  Forall (fun part => contains c part = true) parts ->
  contains c (join sep parts) = true.
Proof.
  intros Hne Hall. destruct Hall as [|p parts Hp Hall]; [congruence|].
  unfold join. destruct parts as [|q parts]; [exact Hp|].
  cbn [String.concat]. now rewrite contains_app, Hp.
Qed.

(** What [build_conninfo] returns when [dbname] is not a DSN. *)
Lemma build_conninfo_composed (config : Config) :
  (forall d, dbname config = Some d ->
             String.eqb d "" || contains equals_sign d = false) ->
  build_conninfo config = conninfo_spec config.
Proof.
  intros H. unfold build_conninfo, conninfo_spec.
  rewrite !append_part_pair_spec, app_nil_l, <- !app_assoc.
  destruct (dbname config) as [d|]; [|reflexivity].
  now rewrite (H d eq_refl).
Qed.

Lemma conninfo_spec_empty_or_dsn (config : Config) :
  (conninfo_spec config = EmptyString /\
   pair_spec "host" (host config) ++ pair_spec "port" (port config)
     ++ pair_spec "user" (user config) ++ pair_spec "dbname" (dbname config) = [])
  \/ contains equals_sign (conninfo_spec config) = true.
Proof.
  unfold conninfo_spec.
  destruct (pair_spec "host" (host config) ++ pair_spec "port" (port config)
     ++ pair_spec "user" (user config) ++ pair_spec "dbname" (dbname config))
    as [|p parts] eqn:E; [left; split; reflexivity|right].
  apply join_contains; [discriminate|]. rewrite <- E.
  repeat (apply Forall_app; split); apply pair_spec_contains.
Qed.

Lemma build_conninfo_empty_or_dsn (config : Config) :
  build_conninfo config = EmptyString \/
  contains equals_sign (build_conninfo config) = true.
Proof.
  destruct (dbname config) as [d|] eqn:Hd.
  - destruct (String.eqb d "" || contains equals_sign d) eqn:Hc.
    + assert (build_conninfo config = d) as ->
        by (unfold build_conninfo; now rewrite Hd, Hc).
      apply orb_true_iff in Hc as [Hc|Hc]; [left; now apply String.eqb_eq|now right].
    + rewrite build_conninfo_composed
        by (intros d' Hd'; rewrite Hd in Hd'; now injection Hd' as <-).
      destruct (conninfo_spec_empty_or_dsn config) as [[H _]|H]; auto.
  - rewrite build_conninfo_composed by (intros d' Hd'; congruence).
    destruct (conninfo_spec_empty_or_dsn config) as [[H _]|H]; auto.
Qed.

(** X3: the result of [build_conninfo] is itself a connection string: given
    back as [dbname], with any host, port and user, it is returned as it
    is. *)
Theorem build_conninfo_fixed_point (config : Config) (h p u : option string) :
  build_conninfo (with_conn config h p u (Some (build_conninfo config)))
  = build_conninfo config.
Proof.
  unfold build_conninfo at 1. cbn [dbname with_conn].
  destruct (build_conninfo_empty_or_dsn config) as [H|H]; rewrite H.
  - reflexivity.
  - now rewrite orb_true_r.
Qed.

Lemma pair_spec_nil (key : string) (value : option string) :
  pair_spec key value = [] <-> unset value.
Proof.
  unfold unset. destruct value as [[|c rest]|]; cbn [pair_spec]; split; auto;
    try discriminate; intros [H|H]; discriminate H.
Qed.

(** X4: [build_conninfo] returns the empty string exactly when [dbname] is
    the empty string, or [dbname] is [None] and host, port and user are all
    unset. *)
Theorem build_conninfo_empty (config : Config) :
  build_conninfo config = EmptyString <->
  dbname config = Some EmptyString \/
  (dbname config = None /\ unset (host config) /\ unset (port config)
   /\ unset (user config)).
Proof.
  split.
  - intros H. destruct (dbname config) as [d|] eqn:Hd.
    + left. destruct (String.eqb d "" || contains equals_sign d) eqn:Hc.
      * assert (build_conninfo config = d) as Hb
          by (unfold build_conninfo; now rewrite Hd, Hc).
        congruence.
      * exfalso. rewrite build_conninfo_composed in H
          by (intros d' Hd'; rewrite Hd in Hd'; now injection Hd' as <-).
        destruct (conninfo_spec_empty_or_dsn config) as [[_ Hnil]|Hdsn].
        -- rewrite Hd in Hnil. apply orb_false_iff in Hc as [Hc _].
           destruct d; [discriminate Hc|].
           apply app_eq_nil in Hnil as [_ Hnil].
           apply app_eq_nil in Hnil as [_ Hnil].
           apply app_eq_nil in Hnil as [_ Hnil]. discriminate Hnil.
        -- rewrite H in Hdsn. discriminate Hdsn.
    + right. split; [reflexivity|].
      rewrite build_conninfo_composed in H by (intros d' Hd'; congruence).
      destruct (conninfo_spec_empty_or_dsn config) as [[_ Hnil]|Hdsn].
      * apply app_eq_nil in Hnil as [Hh Hnil].
        apply app_eq_nil in Hnil as [Hp Hnil].
        apply app_eq_nil in Hnil as [Hu _].
        repeat split; eapply pair_spec_nil; eassumption.
      * rewrite H in Hdsn. discriminate Hdsn.
  - intros [Hd|(Hd & Hh & Hp & Hu)].
    + unfold build_conninfo. now rewrite Hd.
    + rewrite build_conninfo_composed by (intros d' Hd'; congruence).
      unfold conninfo_spec. rewrite Hd.
      apply (pair_spec_nil "host") in Hh. apply (pair_spec_nil "port") in Hp.
      apply (pair_spec_nil "user") in Hu. now rewrite Hh, Hp, Hu.
Qed.

Lemma is_hook_script_approved (environ : gmap string string) :
  (environ !! "BARMAN_HOOK" = Some "backup_script"
   \/ environ !! "BARMAN_HOOK" = Some "backup_retry_script") ->
  environ !! "BARMAN_PHASE" = Some "post" ->
  __is_hook_script environ = Return true.
Proof.
  intros Hh Hp. unfold __is_hook_script, in_environ, getenv. rewrite Hp.
  destruct Hh as [-> | ->];
    rewrite !bool_decide_eq_true_2 by eauto; reflexivity.
Qed.

Lemma is_hook_script_true_inv (environ : gmap string string) :
  __is_hook_script environ = Return true ->
  (environ !! "BARMAN_HOOK" = Some "backup_script"
   \/ environ !! "BARMAN_HOOK" = Some "backup_retry_script")
  /\ environ !! "BARMAN_PHASE" = Some "post".
Proof.
  unfold __is_hook_script, in_environ, getenv.
  destruct (bool_decide (is_Some (environ !! "BARMAN_HOOK"))
            && bool_decide (is_Some (environ !! "BARMAN_PHASE")));
    [|discriminate].
  destruct (bool_decide (environ !! "BARMAN_PHASE" = Some "post")) eqn:Hp;
    [|rewrite andb_false_r; discriminate].
  apply bool_decide_eq_true_1 in Hp.
  repeat case_bool_decide; cbn [orb andb]; try discriminate; auto.
Qed.

Lemma in_environ_is_Some (environ : gmap string string) (name : string) :
  in_environ name environ = true -> is_Some (environ !! name).
Proof. unfold in_environ. apply bool_decide_eq_true_1. Qed.

Lemma in_environ_None (environ : gmap string string) (name : string) :
  environ !! name = None -> in_environ name environ = false.
Proof.
  intros H. unfold in_environ. rewrite H.
  apply bool_decide_eq_false_2. intros [? ?]; discriminate.
Qed.

Lemma is_hook_script_false_inv (environ : gmap string string) :
  __is_hook_script environ = Return false ->
  environ !! "BARMAN_HOOK" = None \/ environ !! "BARMAN_PHASE" = None.
Proof.
  unfold __is_hook_script, in_environ.
  destruct (environ !! "BARMAN_HOOK") as [hook|]; [|now left].
  destruct (environ !! "BARMAN_PHASE") as [phase|]; [|now right].
  rewrite !bool_decide_eq_true_2 by eauto. cbn [andb].
  destruct (_ && _); discriminate.
Qed.

(** X5: [__is_hook_script] returns true exactly for the hooks
    [backup_script] and [backup_retry_script] in phase [post], and false
    exactly when one of the two markers is absent. *)
Theorem is_hook_script_decides_mode (environ : gmap string string) :
  (__is_hook_script environ = Return true <->
   (environ !! "BARMAN_HOOK" = Some "backup_script"
    \/ environ !! "BARMAN_HOOK" = Some "backup_retry_script")
   /\ environ !! "BARMAN_PHASE" = Some "post") /\
  (__is_hook_script environ = Return false <->
   environ !! "BARMAN_HOOK" = None \/ environ !! "BARMAN_PHASE" = None).
Proof.
  split; split.
  - apply is_hook_script_true_inv.
  - intros [Hh Hp]. now apply is_hook_script_approved.
  - apply is_hook_script_false_inv.
  - apply is_hook_script_one_marker.
Qed.

Lemma body_hook_uploader (w : World) (environ : gmap string string)
    (config : Config) (tempdir : string) (d i : option string) (r : result) :
  (NewUploaderBarman d i, r) ∈ trace_of (main_body w environ config tempdir) ->
  __is_hook_script environ = Return true /\
  in_environ "BARMAN_BACKUP_DIR" environ = true /\
  in_environ "BARMAN_BACKUP_ID" environ = true /\
  getenv environ "BARMAN_STATUS" = Some "DONE" /\
  d = getenv environ "BARMAN_BACKUP_DIR" /\
  i = getenv environ "BARMAN_BACKUP_ID".
Proof.
  body_cases_eq; intros H; where_in_trace H; injection H as -> -> _;
    repeat split; try assumption;
    match goal with
    | Hs : bool_decide _ = true |- _ => apply bool_decide_eq_true_1 in Hs; exact Hs
    end.
Qed.

Lemma body_hook_mode (w : World) (environ : gmap string string)
    (config : Config) (tempdir : string) :
  __is_hook_script environ = Return true ->
  in_environ "BARMAN_BACKUP_DIR" environ = true ->
  in_environ "BARMAN_BACKUP_ID" environ = true ->
  bool_decide (getenv environ "BARMAN_STATUS" = Some "DONE") = true ->
  resolved (trace_of (main_body w environ config tempdir)) ->
  (exists r,
     (NewUploaderBarman (getenv environ "BARMAN_BACKUP_DIR")
        (getenv environ "BARMAN_BACKUP_ID"), r)
       ∈ trace_of (main_body w environ config tempdir)) /\
  count is_database (trace_of (main_body w environ config tempdir)) = 0%nat.
Proof.
  intros He Hd Hi Hs.
  body_cases; intros H; first [discriminate H | split; [eexists; in_trace | reflexivity]].
Qed.

Lemma body_one_mode (w : World) (environ : gmap string string)
    (config : Config) (tempdir : string) :
  let t := trace_of (main_body w environ config tempdir) in
  (count is_hook_uploader t + count is_new_postgres t <= 1)%nat /\
  ((0 < count is_hook_uploader t)%nat -> count is_database t = 0%nat).
Proof. body_cases; split; (lia || reflexivity). Qed.

Lemma body_returns (w : World) (environ : gmap string string)
    (config : Config) (tempdir : string) :
  outcome_of (main_body w environ config tempdir) = Return tt ->
  let t := trace_of (main_body w environ config tempdir) in
  (TestConnectivity, Returned (PBool true)) ∈ t /\
  (SetupBucket, Returned PNone) ∈ t /\
  (Backup, Returned PNone) ∈ t /\
  (CloudClose, Returned PNone) ∈ t.
Proof.
  body_cases; intros H;
    first [discriminate H
          | split; [in_trace | split; [in_trace | split; in_trace]]].
Qed.

Lemma body_cloud_close (w : World) (environ : gmap string string)
    (config : Config) (tempdir : string) :
  let t := trace_of (main_body w environ config tempdir) in
  count is_cloud_close t = count is_provisioning t /\
  (count is_provisioning t <= 1)%nat.
Proof. body_cases; split; (reflexivity || lia). Qed.

Lemma body_transfer_order (w : World) (environ : gmap string string)
    (config : Config) (tempdir : string) :
  let t := trace_of (main_body w environ config tempdir) in
  (count is_transfer t <= 1)%nat /\
  ((0 < count is_transfer t)%nat ->
   (TestConnectivity, Returned (PBool true)) ∈ before is_transfer t /\
   (SetupBucket, Returned PNone) ∈ before is_transfer t /\
   count is_resolution (before is_transfer t) = 1%nat).
Proof.
  body_cases; (split; [lia|]); intros H;
    first [exfalso; lia | split; [in_trace | split; [in_trace | reflexivity]]].
Qed.

Lemma body_connect_refused (w : World) (environ : gmap string string)
    (config : Config) (tempdir : string) (e : exn) :
  (Connect, Raised e) ∈ trace_of (main_body w environ config tempdir) ->
  isinstance e PostgresConnectionError = true ->
  let t := trace_of (main_body w environ config tempdir) in
  count is_transfer t = 0%nat /\
  count is_postgres_close t = 0%nat /\
  (LogError ("Cannot connect to postgres: " +:+ force_str e), Returned PNone) ∈ t /\
  (cloud_released t ->
   outcome_of (main_body w environ config tempdir)
   = Raise (Exn SystemExit (ArgInt 1))).
Proof.
  body_cases_eq; intros H Hi; where_in_trace H; injection H as ->;
    try congruence;
    (split; [reflexivity | split; [reflexivity | split; [in_trace|]]]);
    intros Hc; (reflexivity || discriminate Hc).
Qed.

Lemma body_missing_dir (w : World) (environ : gmap string string)
    (config : Config) (tempdir : string) :
  __is_hook_script environ = Return true ->
  in_environ "BARMAN_BACKUP_DIR" environ = false ->
  resolved (trace_of (main_body w environ config tempdir)) ->
  let t := trace_of (main_body w environ config tempdir) in
  count is_hook_uploader t = 0%nat /\
  count is_transfer t = 0%nat /\
  (cloud_released t ->
   outcome_of (main_body w environ config tempdir)
   = Raise (Exn BarmanException
              (ArgStr "BARMAN_BACKUP_DIR environment variable not set"))).
Proof.
  intros He Hd.
  body_cases; intros H; try discriminate H;
    (split; [reflexivity | split; [reflexivity|]]);
    intros Hc; (reflexivity || discriminate Hc).
Qed.

Lemma body_missing_id (w : World) (environ : gmap string string)
    (config : Config) (tempdir : string) :
  __is_hook_script environ = Return true ->
  in_environ "BARMAN_BACKUP_DIR" environ = true ->
  in_environ "BARMAN_BACKUP_ID" environ = false ->
  resolved (trace_of (main_body w environ config tempdir)) ->
  let t := trace_of (main_body w environ config tempdir) in
  count is_hook_uploader t = 0%nat /\
  count is_transfer t = 0%nat /\
  (cloud_released t ->
   outcome_of (main_body w environ config tempdir)
   = Raise (Exn BarmanException
              (ArgStr "BARMAN_BACKUP_ID environment variable not set"))).
Proof.
  intros He Hd Hi.
  body_cases; intros H; try discriminate H;
    (split; [reflexivity | split; [reflexivity|]]);
    intros Hc; (reflexivity || discriminate Hc).
Qed.

Lemma body_transfer_raises (w : World) (environ : gmap string string)
    (config : Config) (tempdir : string) (e : exn) :
  (Backup, Raised e) ∈ trace_of (main_body w environ config tempdir) ->
  cloud_released (trace_of (main_body w environ config tempdir)) ->
  postgres_released (trace_of (main_body w environ config tempdir)) ->
  outcome_of (main_body w environ config tempdir) = Raise e.
Proof.
  body_cases; intros H Hc Hp; where_in_trace H; injection H as ->;
    first [reflexivity | discriminate Hc | discriminate Hp].
Qed.

Lemma body_raise_origin (w : World) (environ : gmap string string)
    (config : Config) (tempdir : string) (e : exn) :
  outcome_of (main_body w environ config tempdir) = Raise e ->
  (exists c, (c, Raised e) ∈ trace_of (main_body w environ config tempdir)) \/
  e = Exn SystemExit (ArgInt 1) \/
  e = Exn SystemExit (ArgInt 0) \/
  isinstance e Exception = true.
Proof.
  body_cases; intros H; try discriminate H; injection H as <-;
    first [ left; eexists; solve [in_trace]
          | right; left; reflexivity
          | right; right; left; reflexivity
          | right; right; right; reflexivity ].
Qed.

Lemma body_set_tempdir (w : World) (environ : gmap string string)
    (config : Config) (tempdir d : string) (r : result) :
  (SetTempdir d, r) ∈ trace_of (main_body w environ config tempdir) ->
  d = tempdir.
Proof.
  body_cases; intros H; where_in_trace H; now injection H as ->.
Qed.

Lemma before_app (p : event -> bool) (t1 t2 : trace) :
  count p t1 = 0%nat -> before p (t1 ++ t2) = t1 ++ before p t2.
Proof.
  induction t1 as [|e t1 IH]; [reflexivity|].
  cbn [app count before]. destruct (p e); [discriminate|].
  intros H. now rewrite IH.
Qed.

Lemma before_app_found (p : event -> bool) (t1 t2 : trace) :
  count p t1 <> 0%nat -> before p (t1 ++ t2) = before p t1.
Proof.
  induction t1 as [|e t1 IH]; [intros H; now contradiction H|].
  cbn [app count before]. destruct (p e); [reflexivity|].
  intros H. now rewrite IH.
Qed.

Lemma count_run (p : event -> bool) (pre tb : trace) (o : outcome unit)
    (rm : event) :
  count p pre = 0%nat ->
  (forall ev, is_log ev = true -> p ev = false) ->
  p rm = false ->
  count p (pre ++ tb ++ handler_log o ++ [rm]) = count p tb.
Proof.
  intros Hpre Hlog Hrm.
  rewrite !count_app, Hpre, count_handler_log by assumption.
  cbn [count]. rewrite Hrm. lia.
Qed.

Lemma in_body_run (ev rm : event) (pre tb : trace) (o : outcome unit) :
  ev ∈ tb -> ev ∈ pre ++ tb ++ handler_log o ++ [rm].
Proof. intros H. apply elem_of_app; right. apply elem_of_app; now left. Qed.

Lemma in_log_run (ev rm : event) (pre tb : trace) (o : outcome unit) :
  ev ∈ handler_log o -> ev ∈ pre ++ tb ++ handler_log o ++ [rm].
Proof.
  intros H. apply elem_of_app; right. apply elem_of_app; right.
  apply elem_of_app; now left.
Qed.

Lemma handled_return (o : outcome unit) (a : unit) :
  handled o = Return a -> o = Return a.
Proof.
  destruct o as [b|[cls arg]]; [trivial|]. destruct cls; discriminate.
Qed.

Lemma handled_escapes (o : outcome unit) (e : exn) :
  handled o = Raise e ->
  isinstance e Exception = false /\ isinstance e KeyboardInterrupt = false.
Proof.
  destruct o as [b|[cls arg]]; [discriminate|].
  destruct cls; intros H; injection H as <-; split; reflexivity.
Qed.

Lemma handled_exit (e : exn) :
  isinstance e Exception = true \/ isinstance e KeyboardInterrupt = true ->
  exit_code (handled (Raise e)) = Some 1 \/
  exit_code (handled (Raise e)) = Some 63.
Proof.
  destruct e as [cls arg].
  destruct cls; intros [H|H]; try discriminate H;
    first [left; reflexivity | right; reflexivity].
Qed.

(** X6: a run constructs the hook uploader only in an approved hook
    environment whose status is [DONE], and hands it the backup directory
    and identifier of the environment, both set. *)
Theorem hook_uploader_only_when_done (w : World)
    (environ : gmap string string) (args : list string)
    (d i : option string) (r : result) :
  (NewUploaderBarman d i, r) ∈ trace_of (main w environ args) ->
  ((environ !! "BARMAN_HOOK" = Some "backup_script"
    \/ environ !! "BARMAN_HOOK" = Some "backup_retry_script")
   /\ environ !! "BARMAN_PHASE" = Some "post") /\
  environ !! "BARMAN_STATUS" = Some "DONE" /\
  d = environ !! "BARMAN_BACKUP_DIR" /\ is_Some d /\
  i = environ !! "BARMAN_BACKUP_ID" /\ is_Some i.
Proof.
  intros H. run_cases (main_cases w environ args).
  1-3: not_in_trace H.
  apply in_run_body in H; [|reflexivity|intros H'; not_in_trace H'|discriminate].
  apply body_hook_uploader in H as (He & Hd & Hi & Hs & -> & ->).
  split; [now apply is_hook_script_true_inv|].
  split; [exact Hs|].
  split; [reflexivity|]. split; [now apply in_environ_is_Some|].
  split; [reflexivity|]. now apply in_environ_is_Some.
Qed.

(** X7: in an approved hook environment with directory, identifier and
    status [DONE], every run that performs the resolution constructs the
    hook uploader with that directory and identifier and makes no call on
    the database. *)
Theorem hook_mode_uses_environment (environ : gmap string string)
    (dir id : string) :
  (environ !! "BARMAN_HOOK" = Some "backup_script"
   \/ environ !! "BARMAN_HOOK" = Some "backup_retry_script") ->
  environ !! "BARMAN_PHASE" = Some "post" ->
  environ !! "BARMAN_BACKUP_DIR" = Some dir ->
  environ !! "BARMAN_BACKUP_ID" = Some id ->
  environ !! "BARMAN_STATUS" = Some "DONE" ->
  forall (w : World) (args : list string),
    resolved (trace_of (main w environ args)) ->
    (exists r, (NewUploaderBarman (Some dir) (Some id), r)
                 ∈ trace_of (main w environ args)) /\
    count is_database (trace_of (main w environ args)) = 0%nat.
Proof.
  intros Hh Hp Hd Hi Hs w args Hres. unfold resolved in Hres.
  run_cases (main_cases w environ args).
  1-3: discriminate Hres.
  rewrite count_run in Hres by (reflexivity || no_log_event).
  destruct (body_hook_mode w environ config tempdir) as [[r Hr] Hdb];
    [ now apply is_hook_script_approved | now apply in_environ_Some with dir
    | now apply in_environ_Some with id
    | apply bool_decide_eq_true_2; exact Hs | exact Hres | ].
  unfold getenv in Hr. rewrite Hd, Hi in Hr.
  split; [exists r; now apply in_body_run|].
  rewrite count_run by (reflexivity || no_log_event). exact Hdb.
Qed.

(** X8: a run takes one mode at most: it constructs the hook uploader or
    the PostgreSQL connection, never both, and once the hook uploader is
    constructed it makes no call on the database. *)
Theorem one_mode_per_run (w : World) (environ : gmap string string)
    (args : list string) :
  let t := trace_of (main w environ args) in
  (count is_hook_uploader t + count is_new_postgres t <= 1)%nat /\
  ((0 < count is_hook_uploader t)%nat -> count is_database t = 0%nat).
Proof.
  run_cases (main_cases w environ args).
  1-3: cbn; split; lia.
  rewrite !count_run by (reflexivity || no_log_event).
  apply body_one_mode.
Qed.

(** X9: the [except] clauses let no [Exception] and no [KeyboardInterrupt]
    of the [try] body pass: when a run created its temporary directory, the
    logging calls of the handlers and the final [rmtree] returned, and the
    run ends with an exception, that exception is an instance of neither. *)
Theorem no_exception_escapes (w : World) (environ : gmap string string)
    (args : list string) (dir : string) (e : exn) :
  created_tempdir (trace_of (main w environ args)) = Some dir ->
  handlers_and_cleanup_returned (trace_of (main w environ args)) ->
  outcome_of (main w environ args) = Raise e ->
  isinstance e Exception = false /\ isinstance e KeyboardInterrupt = false.
Proof.
  intros Hdir _ H. run_cases (main_cases w environ args).
  1-3: discriminate Hdir.
  now apply handled_escapes in H.
Qed.

(** X10: when [main] returns normally, the probe succeeded, the bucket was
    set up, the transfer returned and the storage client was closed. *)
Theorem normal_return_means_transferred (w : World)
    (environ : gmap string string) (args : list string) :
  outcome_of (main w environ args) = Return tt ->
  let t := trace_of (main w environ args) in
  (TestConnectivity, Returned (PBool true)) ∈ t /\
  (SetupBucket, Returned PNone) ∈ t /\
  (Backup, Returned PNone) ∈ t /\
  (CloudClose, Returned PNone) ∈ t.
Proof.
  intros H. run_cases (main_cases w environ args).
  1-3: discriminate H.
  apply handled_return in H.
  destruct (body_returns w environ config tempdir H) as (H1 & H2 & H3 & H4).
  repeat split; now apply in_body_run.
Qed.

(** X11: [cloud_interface.close()] is called exactly as often as
    [setup_bucket], that is once when the [with] block is entered and never
    when the run ends at the probe. *)
Theorem storage_client_closed_once (w : World)
    (environ : gmap string string) (args : list string) :
  let t := trace_of (main w environ args) in
  count is_cloud_close t = count is_provisioning t /\
  (count is_provisioning t <= 1)%nat.
Proof.
  run_cases (main_cases w environ args).
  1-3: cbn; split; lia.
  rewrite !count_run by (reflexivity || no_log_event).
  apply body_cloud_close.
Qed.

(** X12: a run transfers at most once, and before the transfer it has
    probed the destination with success, set up the bucket and resolved
    its mode: all three calls are among those that precede [backup()]. *)
Theorem transfer_only_after_provisioning (w : World)
    (environ : gmap string string) (args : list string) :
  let t := trace_of (main w environ args) in
  (count is_transfer t <= 1)%nat /\
  ((0 < count is_transfer t)%nat ->
   (TestConnectivity, Returned (PBool true)) ∈ before is_transfer t /\
   (SetupBucket, Returned PNone) ∈ before is_transfer t /\
   resolved (before is_transfer t)).
Proof.
  unfold resolved. run_cases (main_cases w environ args).
  1-3: cbn; split; lia.
  rewrite !count_run by (reflexivity || no_log_event).
  destruct (body_transfer_order w environ config tempdir) as [Hle Hpos].
  split; [exact Hle|]. intros H.
  destruct (Hpos H) as (H1 & H2 & H3).
  rewrite before_app by reflexivity.
  rewrite before_app_found by (unfold trace_of in H; lia).
  split; [apply elem_of_app; now right|].
  split; [apply elem_of_app; now right|].
  rewrite count_app. cbn [count is_resolution fst].
  unfold trace_of in H3. lia.
Qed.

(** X13: when [connect()] raises a [PostgresConnectionError], nothing is
    transferred, the connection is not closed, the error is logged as
    [Cannot connect to postgres], and, the storage client being released
    without error, the process exits with code 1. *)
Theorem connection_refused (w : World) (environ : gmap string string)
    (args : list string) (e : exn) :
  (Connect, Raised e) ∈ trace_of (main w environ args) ->
  isinstance e PostgresConnectionError = true ->
  let t := trace_of (main w environ args) in
  count is_transfer t = 0%nat /\
  count is_postgres_close t = 0%nat /\
  (LogError ("Cannot connect to postgres: " +:+ force_str e), Returned PNone) ∈ t /\
  (cloud_released t -> exit_code (outcome_of (main w environ args)) = Some 1).
Proof.
  intros H Hi. unfold cloud_released. run_cases (main_cases w environ args).
  1-3: not_in_trace H.
  apply in_run_body in H; [|reflexivity|intros H'; not_in_trace H'|discriminate].
  destruct (body_connect_refused w environ config tempdir e H Hi)
    as (Ht & Hc & Hlog & Hout).
  rewrite !count_run by (reflexivity || no_log_event).
  split; [exact Ht|]. split; [exact Hc|].
  split; [now apply in_body_run|].
  intros Hr. unfold outcome_of in Hout. rewrite Hout by exact Hr. reflexivity.
Qed.

(** X14: in an approved hook environment without [BARMAN_BACKUP_DIR] or
    [BARMAN_BACKUP_ID], a run that performs the resolution constructs no
    uploader and transfers nothing; the storage client being released
    without error, it logs the first missing variable and exits with
    code 1. *)
Theorem hook_missing_variable (environ : gmap string string) :
  (environ !! "BARMAN_HOOK" = Some "backup_script"
   \/ environ !! "BARMAN_HOOK" = Some "backup_retry_script") ->
  environ !! "BARMAN_PHASE" = Some "post" ->
  environ !! "BARMAN_BACKUP_DIR" = None \/ environ !! "BARMAN_BACKUP_ID" = None ->
  let missing :=
    match environ !! "BARMAN_BACKUP_DIR" with
    | None => "BARMAN_BACKUP_DIR"
    | Some _ => "BARMAN_BACKUP_ID"
    end in
  forall (w : World) (args : list string),
    let t := trace_of (main w environ args) in
    resolved t ->
    count is_hook_uploader t = 0%nat /\
    count is_transfer t = 0%nat /\
    (cloud_released t ->
     (LogError ("Barman cloud backup exception: " +:+ missing
                  +:+ " environment variable not set"), Returned PNone) ∈ t /\
     exit_code (outcome_of (main w environ args)) = Some 1).
Proof.
  intros Hh Hp Hmiss missing w args.
  pose proof (is_hook_script_approved environ Hh Hp) as He.
  unfold resolved, cloud_released. run_cases (main_cases w environ args).
  1-3: intros Hres; discriminate Hres.
  rewrite !count_run by (reflexivity || no_log_event). intros Hres.
  assert (Hbody :
    count is_hook_uploader (fst (main_body w environ config tempdir)) = 0%nat /\
    count is_transfer (fst (main_body w environ config tempdir)) = 0%nat /\
    (cloud_released (fst (main_body w environ config tempdir)) ->
     snd (main_body w environ config tempdir)
     = Raise (Exn BarmanException
                (ArgStr (missing +:+ " environment variable not set"))))).
  { unfold missing.
    destruct (environ !! "BARMAN_BACKUP_DIR") as [dir|] eqn:Hd.
    - destruct Hmiss as [Hm|Hm]; [discriminate Hm|].
      apply body_missing_id;
        [ exact He | now apply in_environ_Some with dir
        | now apply in_environ_None | exact Hres ].
    - apply body_missing_dir;
        [ exact He | now apply in_environ_None | exact Hres ]. }
  destruct Hbody as (Hu & Ht & Hout).
  split; [exact Hu|]. split; [exact Ht|].
  intros Hr. rewrite Hout by exact Hr.
  split; [|reflexivity].
  apply in_log_run. apply list_elem_of_here.
Qed.

(** X15: when the transfer raises and both releases go without error, the
    exception of the transfer decides the end of the run: a
    [KeyboardInterrupt] is logged as an interruption, another [Exception]
    with its text, and the process exits with code 1 either way. *)
Theorem transfer_failure (w : World) (environ : gmap string string)
    (args : list string) (e : exn) :
  (Backup, Raised e) ∈ trace_of (main w environ args) ->
  cloud_released (trace_of (main w environ args)) ->
  postgres_released (trace_of (main w environ args)) ->
  let t := trace_of (main w environ args) in
  (isinstance e KeyboardInterrupt = true ->
   (LogError "Barman cloud backup was interrupted by the user", Returned PNone) ∈ t /\
   exit_code (outcome_of (main w environ args)) = Some 1) /\
  (isinstance e Exception = true ->
   isinstance e UnrecoverableHookScriptError = false ->
   (LogError ("Barman cloud backup exception: " +:+ force_str e), Returned PNone) ∈ t /\
   exit_code (outcome_of (main w environ args)) = Some 1).
Proof.
  intros H Hc Hp. unfold cloud_released, postgres_released in *.
  run_cases (main_cases w environ args).
  1-3: not_in_trace H.
  apply in_run_body in H; [|reflexivity|intros H'; not_in_trace H'|discriminate].
  rewrite !count_run in Hc, Hp by (reflexivity || no_log_event).
  pose proof (body_transfer_raises w environ config tempdir e H Hc Hp) as Hout.
  unfold outcome_of in Hout. rewrite Hout.
  destruct e as [cls arg].
  split; [intros Hk | intros Hx Hu]; destruct cls;
    try discriminate Hk; try discriminate Hx; try discriminate Hu;
    (split; [apply in_log_run; apply list_elem_of_here | reflexivity]).
Qed.

(** X16: the directory [tempfile.tempdir] is set to is the one [mkdtemp]
    created, and the one the last call of the run removes. *)
Theorem tempdir_is_the_removed_one (w : World) (environ : gmap string string)
    (args : list string) (d : string) (r : result) :
  (SetTempdir d, r) ∈ trace_of (main w environ args) ->
  created_tempdir (trace_of (main w environ args)) = Some d /\
  last (trace_of (main w environ args)) = Some (Rmtree d true, Returned PNone).
Proof.
  intros H. run_cases (main_cases w environ args).
  1-3: not_in_trace H.
  apply in_run_body in H; [|reflexivity|intros H'; not_in_trace H'|discriminate].
  apply body_set_tempdir in H as ->.
  split; [reflexivity|]. now rewrite !app_assoc, last_snoc.
Qed.

(** X17: a run that fails before the temporary directory exists removes
    nothing and never reaches the storage client; the exception of the
    failing call reaches the caller as it is. *)
Theorem failure_before_try (w : World) (environ : gmap string string)
    (args : list string) :
  created_tempdir (trace_of (main w environ args)) = None ->
  let t := trace_of (main w environ args) in
  count is_rmtree t = 0%nat /\
  count is_probe t = 0%nat /\
  exists c e, last t = Some (c, Raised e) /\
              outcome_of (main w environ args) = Raise e.
Proof.
  intros H. run_cases (main_cases w environ args).
  4: discriminate H.
  all: split; [reflexivity|]; split; [reflexivity|]; eexists _, _; split; reflexivity.
Qed.

(** X18: what [rmtree] runs into changes neither the calls nor the outcome
    of a run. *)
Theorem rmtree_outcome_ignored (w : World) (removal : string -> option string)
    (environ : gmap string string) (args : list string) :
  main (with_rmtree w removal) environ args = main w environ args.
Proof.
  unfold main, invoke, mbind, M_bind. cbn [parse_arguments with_rmtree].
  destruct (parse_arguments w args) as [config|e]; [|reflexivity].
  cbn [configure_logging with_rmtree].
  destruct (configure_logging w config) as [[]|e]; [|reflexivity].
  cbn [mkdtemp with_rmtree].
  destruct (mkdtemp w "barman-cloud-backup-") as [tempdir|e]; [|reflexivity].
  now rewrite !main_try_eq.
Qed.

(** X19: when the temporary directory was created, every exception a call
    raised is an [Exception] or a [KeyboardInterrupt], and the logging calls
    of the handlers and the final [rmtree] returned, the process exits with
    code 0, 1 or 63. *)
Theorem exit_codes (w : World) (environ : gmap string string)
    (args : list string) (dir : string) :
  created_tempdir (trace_of (main w environ args)) = Some dir ->
  (forall c e, (c, Raised e) ∈ trace_of (main w environ args) ->
     isinstance e Exception = true \/ isinstance e KeyboardInterrupt = true) ->
  handlers_and_cleanup_returned (trace_of (main w environ args)) ->
  exit_code (outcome_of (main w environ args)) = Some 0 \/
  exit_code (outcome_of (main w environ args)) = Some 1 \/
  exit_code (outcome_of (main w environ args)) = Some 63.
Proof.
  intros Hdir Hall _. run_cases (main_cases w environ args).
  1-3: discriminate Hdir.
  destruct (snd (main_body w environ config tempdir)) as [[]|e] eqn:Hout;
    [left; reflexivity|].
  destruct (body_raise_origin w environ config tempdir e Hout)
    as [[c Hc]|[->|[->|Hx]]].
  - right. apply handled_exit. apply (Hall c). now apply in_body_run.
  - right; left; reflexivity.
  - left; reflexivity.
  - right. apply handled_exit. now left.
Qed.

(* ===================================================================== *)
(** * The further properties at concrete runs *)
(* ===================================================================== *)

Lemma hook_uploader_only_when_done_witness :
  env_hook_backup "DONE" !! "BARMAN_STATUS" = Some "DONE".
Proof.
  apply (hook_uploader_only_when_done world_ok (env_hook_backup "DONE") sample_args
           (Some "/var/lib/barman/pg/base/20210101T000000")
           (Some "20210101T000000") (Returned PObject)).
  vm_compute. in_trace.
Defined.

Lemma hook_mode_uses_environment_witness :
  count is_database
    (trace_of (main world_ok (env_hook_backup "DONE") sample_args)) = 0%nat.
Proof.
  apply (hook_mode_uses_environment (env_hook_backup "DONE")
           "/var/lib/barman/pg/base/20210101T000000" "20210101T000000").
  - left. reflexivity.
  - reflexivity.
  - reflexivity.
  - reflexivity.
  - reflexivity.
  - vm_compute. reflexivity.
Defined.

Lemma no_exception_escapes_witness :
  isinstance (Exn SystemExit (ArgInt 1)) Exception = false /\
  isinstance (Exn SystemExit (ArgInt 1)) KeyboardInterrupt = false.
Proof.
  apply (no_exception_escapes world_interrupted env_direct sample_args
           "/tmp/barman-cloud-backup-k3x9").
  - vm_compute. reflexivity.
  - intros c e H. vm_compute in H. where_in_trace H.
    injection H as -> ->. split; reflexivity.
  - vm_compute. reflexivity.
Defined.

Lemma normal_return_means_transferred_witness :
  (Backup, Returned PNone) ∈ trace_of (main world_ok env_direct sample_args).
Proof.
  apply (normal_return_means_transferred world_ok env_direct sample_args).
  vm_compute. reflexivity.
Defined.

Lemma transfer_only_after_provisioning_witness :
  (SetupBucket, Returned PNone)
    ∈ before is_transfer (trace_of (main world_ok env_direct sample_args)) /\
  resolved (before is_transfer (trace_of (main world_ok env_direct sample_args))).
Proof.
  apply (transfer_only_after_provisioning world_ok env_direct sample_args).
  vm_compute. lia.
Defined.

Lemma connection_refused_witness :
  (LogError "Cannot connect to postgres: could not connect to server",
   Returned PNone) ∈ trace_of (main world_postgres_down env_direct sample_args) /\
  exit_code (outcome_of (main world_postgres_down env_direct sample_args)) = Some 1.
Proof.
  destruct (connection_refused world_postgres_down env_direct sample_args
              (Exn PostgresConnectionError
                 (ArgStr (" could not connect to server "
                            +:+ String (ascii_of_nat 10) "Is the server running?"))))
    as (_ & _ & Hlog & Hexit).
  - vm_compute. in_trace.
  - reflexivity.
  - split; [exact Hlog | apply Hexit; vm_compute; reflexivity].
Defined.

Lemma hook_missing_variable_witness :
  count is_hook_uploader
    (trace_of (main world_ok env_hook_no_dir sample_args)) = 0%nat.
Proof.
  apply (hook_missing_variable env_hook_no_dir).
  - left. reflexivity.
  - reflexivity.
  - left. reflexivity.
  - vm_compute. reflexivity.
Defined.

Lemma transfer_failure_witness :
  exit_code (outcome_of (main world_transfer_fails env_direct sample_args)) = Some 1.
Proof.
  destruct (transfer_failure world_transfer_fails env_direct sample_args
              (Exn OSError (ArgStr "Broken pipe"))) as [_ Hexc].
  - vm_compute. in_trace.
  - vm_compute. reflexivity.
  - vm_compute. reflexivity.
  - apply Hexc; reflexivity.
Defined.

Lemma tempdir_is_the_removed_one_witness :
  last (trace_of (main world_ok env_direct sample_args))
  = Some (Rmtree "/tmp/barman-cloud-backup-k3x9" true, Returned PNone).
Proof.
  apply (tempdir_is_the_removed_one world_ok env_direct sample_args
           "/tmp/barman-cloud-backup-k3x9" (Returned PNone)).
  vm_compute. in_trace.
Defined.

Lemma failure_before_try_witness :
  count is_rmtree (trace_of (main world_bad_args env_direct sample_args)) = 0%nat.
Proof.
  apply (failure_before_try world_bad_args env_direct sample_args).
  vm_compute. reflexivity.
Defined.

Lemma exit_codes_witness :
  exit_code (outcome_of (main world_transfer_fails env_direct sample_args)) = Some 0 \/
  exit_code (outcome_of (main world_transfer_fails env_direct sample_args)) = Some 1 \/
  exit_code (outcome_of (main world_transfer_fails env_direct sample_args)) = Some 63.
Proof.
  apply (exit_codes world_transfer_fails env_direct sample_args
           "/tmp/barman-cloud-backup-k3x9").
  - vm_compute. reflexivity.
  - intros c e H. vm_compute in H. where_in_trace H.
    injection H as _ ->. left. reflexivity.
  - intros c e H. vm_compute in H. where_in_trace H.
    injection H as -> ->. split; reflexivity.
Defined.

Example rmtree_failure_run :
  main world_rmtree_fails env_direct sample_args
  = main world_ok env_direct sample_args.
Proof. vm_compute. reflexivity. Qed.

Example bad_args_exit_code :
  exit_code (outcome_of (main world_bad_args env_direct sample_args)) = Some 2.
Proof. vm_compute. reflexivity. Qed.

(** The text of a connection error is the first line of its argument,
    stripped, and nothing for a missing or falsy argument; other exceptions
    give their argument as it is. *)
Example force_str_connection_error :
  force_str (Exn PostgresConnectionError
               (ArgStr ("  FATAL: no pg_hba.conf entry "
                          +:+ String (ascii_of_nat 10) "DETAIL: none")))
  = "FATAL: no pg_hba.conf entry" /\
  force_str (Exn PostgresConnectionError (ArgInt 0)) = "" /\
  force_str (Exn PostgresConnectionError ArgNone) = "" /\
  force_str (Exn BarmanException (ArgStr " as it is ")) = " as it is ".
Proof. repeat split; reflexivity. Qed.

(** The process keeps the low eight bits of the code of a [SystemExit]. *)
Example exit_code_wraps :
  exit_code (Raise (Exn SystemExit (ArgInt 256))) = Some 0 /\
  exit_code (Raise (Exn SystemExit (ArgInt (-1)))) = Some 255 /\
  exit_code (Raise (Exn SystemExit (ArgInt 63))) = Some 63.
Proof. repeat split; reflexivity. Qed.
